(** * qbreader.types: decoded JSON records to typed trivia questions

    A shallow embedding of [src/qbreader/types.py]: the three taxonomy
    enums ([Category], [Subcategory], [Difficulty]), the two question
    entities ([Tossup], [Bonus]) with their [from_json] constructors, and
    the [QueryResponse] aggregate, followed by the properties of the
    natural-language specification that were checked against them.

    The Python code is dynamically typed: [from_json] receives whatever
    the JSON decoder produced and stores most fields without looking at
    them.  The embedding keeps that: entity fields that the code copies
    verbatim hold a [json] value, and every operation that can raise in
    Python returns a [result]. *)

From Stdlib Require Import String Ascii List ZArith Bool Lia.
From Stdlib Require Import DecimalString DecimalPos DecimalZ.
Import ListNotations.
Open Scope list_scope.
Open Scope string_scope.

(* ================================================================= *)
(** ** Decoded JSON values *)

(** What [json.loads] hands to this module.  A Python [dict] keeps its
    keys in insertion order, and that order is observable here (a dict
    can be iterated by [tuple(...)] and by a list comprehension), so an
    object is an association list; a well-formed one has distinct keys,
    and [dict_lookup] returns the first binding of a key.  JSON numbers
    with a fraction or an exponent (Python [float]) are not modelled,
    and a string is a sequence of 8-bit characters. *)
#[warnings="-register-all"]
Inductive json : Type :=
| JNull : json
| JBool : bool -> json
| JInt : Z -> json
| JStr : string -> json
| JList : list json -> json
| JObj : list (string * json) -> json.

(** The exceptions this module can raise. [KeyError] carries the missing
    key, [ValueError] the enum class name and the offending value. *)
Inductive exn : Type :=
| KeyError : string -> exn
| ValueError : string -> json -> exn
| TypeError : exn
| AttributeError : exn.

Inductive result (A : Type) : Type :=
| Ok : A -> result A
| Err : exn -> result A.

Arguments Ok {A} _.
Arguments Err {A} _.

Definition bind {A B : Type} (m : result A) (k : A -> result B) : result B :=
  match m with
  | Ok a => k a
  | Err e => Err e
  end.

Notation "x <- m ;; k" := (bind m (fun x => k))
  (at level 61, m at next level, right associativity).

(** A list comprehension whose body can raise: elements are evaluated
    left to right and the first exception ends the comprehension. *)
Fixpoint mapM {A B : Type} (f : A -> result B) (l : list A) : result (list B) :=
  match l with
  | [] => Ok []
  | x :: xs => y <- f x ;; ys <- mapM f xs ;; Ok (y :: ys)
  end.

Definition is_ok {A : Type} (r : result A) : bool :=
  match r with Ok _ => true | Err _ => false end.

Definition is_ValueError (e : exn) : bool :=
  match e with ValueError _ _ => true | _ => false end.

(* ================================================================= *)
(** ** The Python built-ins the module relies on *)

Definition LF : string := String "010"%char EmptyString.

Fixpoint dict_lookup (k : string) (d : list (string * json)) : option json :=
  match d with
  | [] => None
  | (k', v) :: rest => if String.eqb k k' then Some v else dict_lookup k rest
  end.

(** [obj[key]]: a dict raises [KeyError] on a missing key; a list or a
    string rejects a string index and the other values are not
    subscriptable, all with [TypeError]. *)
Definition getitem (obj : json) (key : string) : result json :=
  match obj with
  | JObj d =>
      match dict_lookup key d with
      | Some v => Ok v
      | None => Err (KeyError key)
      end
  | _ => Err TypeError
  end.

(** [obj.get(key, default)]: only a dict has the method. *)
Definition py_get (obj : json) (key : string) (default : json) : result json :=
  match obj with
  | JObj d =>
      match dict_lookup key d with
      | Some v => Ok v
      | None => Ok default
      end
  | _ => Err AttributeError
  end.

(** Truth value of [x] in [x if x else y]. *)
Definition py_truthy (v : json) : bool :=
  match v with
  | JNull => false
  | JBool b => b
  | JInt z => negb (Z.eqb z 0)
  | JStr s => negb (String.eqb s EmptyString)
  | JList l => match l with [] => false | _ => true end
  | JObj d => match d with [] => false | _ => true end
  end.

Fixpoint chars (s : string) : list json :=
  match s with
  | EmptyString => []
  | String c rest => JStr (String c EmptyString) :: chars rest
  end.

(** Iteration, as done by [tuple(x)] and by [for e in x]: a list yields
    its elements, a string its characters, a dict its keys; the other
    values are not iterable. *)
Definition py_iter (v : json) : result (list json) :=
  match v with
  | JList l => Ok l
  | JStr s => Ok (chars s)
  | JObj d => Ok (map (fun kv => JStr (fst kv)) d)
  | _ => Err TypeError
  end.

Definition tuple (v : json) : result (list json) := py_iter v.

Fixpoint join (sep : string) (l : list string) : string :=
  match l with
  | [] => EmptyString
  | [s] => s
  | s :: rest => s ++ sep ++ join sep rest
  end.

(** [sep.join(items)] raises [TypeError] when an item is not a [str]. *)
Definition as_str (v : json) : result string :=
  match v with
  | JStr s => Ok s
  | _ => Err TypeError
  end.

Definition py_join (sep : string) (items : list json) : result string :=
  l <- mapM as_str items ;; Ok (join sep l).

Definition str_of_Z (z : Z) : string := NilZero.string_of_int (Z.to_int z).

(** [repr] of a string: single quotes unless the text has a single
    quote and no double quote; the quote in use, the backslash and the
    ASCII control characters are escaped, every other character is
    kept. *)
Definition hex_digit (n : nat) : string :=
  String (ascii_of_nat (if Nat.ltb n 10 then 48 + n else 87 + n)) EmptyString.

Definition repr_char (quote : ascii) (c : ascii) : string :=
  let n := nat_of_ascii c in
  if Ascii.eqb c quote then String "092"%char (String c EmptyString)
  else if Ascii.eqb c "092"%char then String "092"%char (String "092"%char EmptyString)
  else if Nat.eqb n 10 then "\n"
  else if Nat.eqb n 13 then "\r"
  else if Nat.eqb n 9 then "\t"
  else if (Nat.ltb n 32 || Nat.eqb n 127)%bool
       then "\x" ++ hex_digit (n / 16) ++ hex_digit (n mod 16)
  else String c EmptyString.

Fixpoint has_char (c : ascii) (s : string) : bool :=
  match s with
  | EmptyString => false
  | String c' rest => (Ascii.eqb c c' || has_char c rest)%bool
  end.

Fixpoint escape (quote : ascii) (s : string) : string :=
  match s with
  | EmptyString => EmptyString
  | String c rest => repr_char quote c ++ escape quote rest
  end.

Definition repr_str (s : string) : string :=
  let quote :=
    if (has_char "'"%char s && negb (has_char "034"%char s))%bool
    then "034"%char else "'"%char in
  String quote (escape quote s) ++ String quote EmptyString.

Fixpoint repr (v : json) : string :=
  match v with
  | JNull => "None"
  | JBool true => "True"
  | JBool false => "False"
  | JInt z => str_of_Z z
  | JStr s => repr_str s
  | JList l => "[" ++ join ", " (map repr l) ++ "]"
  | JObj d =>
      "{" ++ join ", " (map (fun kv => repr_str (fst kv) ++ ": " ++ repr (snd kv)) d)
          ++ "}"
  end.

(** [str(x)]: a string is returned as it is, every other value prints
    as its [repr]. *)
Definition str (v : json) : string :=
  match v with
  | JStr s => s
  | _ => repr v
  end.


(* ================================================================= *)
(** ** Taxonomy enums *)

(** [enum.StrEnum]: a closed class whose members, in definition order,
    each carry a string value. *)
Class StrEnum (E : Type) : Type := {
  enum_name : string;
  members : list E;
  value : E -> string
}.

Section EnumCall.
Context {E : Type} `{StrEnum E}.

(** The by-value lookup behind [E(x)]. *)
Definition lookup_value (s : string) : option E :=
  find (fun m => String.eqb (value m) s) members.

(** [E(x)]: the member whose value equals [x], or [ValueError].  No
    member value equals a non-string JSON value. *)
Definition enum_call (v : json) : result E :=
  match v with
  | JStr s =>
      match lookup_value s with
      | Some m => Ok m
      | None => Err (ValueError enum_name v)
      end
  | _ => Err (ValueError enum_name v)
  end.

Definition canonical_strings : list string := map value members.
End EnumCall.

Arguments enum_call E {_} v.
Arguments canonical_strings E {_}.

Inductive Category : Type :=
| LITERATURE | HISTORY | SCIENCE | FINE_ARTS | RELIGION | MYTHOLOGY
| PHILOSOPHY | SOCIAL_SCIENCE | CURRENT_EVENTS | GEOGRAPHY
| OTHER_ACADEMIC | TRASH.

#[export] Instance Category_enum : StrEnum Category := {
  enum_name := "Category";
  members := [LITERATURE; HISTORY; SCIENCE; FINE_ARTS; RELIGION; MYTHOLOGY;
              PHILOSOPHY; SOCIAL_SCIENCE; CURRENT_EVENTS; GEOGRAPHY;
              OTHER_ACADEMIC; TRASH];
  value c :=
    match c with
    | LITERATURE => "Literature"
    | HISTORY => "History"
    | SCIENCE => "Science"
    | FINE_ARTS => "Fine Arts"
    | RELIGION => "Religion"
    | MYTHOLOGY => "Mythology"
    | PHILOSOPHY => "Philosophy"
    | SOCIAL_SCIENCE => "Social Science"
    | CURRENT_EVENTS => "Current Events"
    | GEOGRAPHY => "Geography"
    | OTHER_ACADEMIC => "Other Academic"
    | TRASH => "Trash"
    end
}.

Inductive Subcategory : Type :=
| AMERICAN_LITERATURE | BRITISH_LITERATURE | CLASSICAL_LITERATURE
| EUROPEAN_LITERATURE | WORLD_LITERATURE | OTHER_LITERATURE
| AMERICAN_HISTORY | ANCIENT_HISTORY | EUROPEAN_HISTORY | WORLD_HISTORY
| OTHER_HISTORY
| BIOLOGY | CHEMISTRY | PHYSICS | MATH | OTHER_SCIENCE
| VISUAL_FINE_ARTS | AUDITORY_FINE_ARTS | OTHER_FINE_ARTS.

#[export] Instance Subcategory_enum : StrEnum Subcategory := {
  enum_name := "Subcategory";
  members := [AMERICAN_LITERATURE; BRITISH_LITERATURE; CLASSICAL_LITERATURE;
              EUROPEAN_LITERATURE; WORLD_LITERATURE; OTHER_LITERATURE;
              AMERICAN_HISTORY; ANCIENT_HISTORY; EUROPEAN_HISTORY;
              WORLD_HISTORY; OTHER_HISTORY;
              BIOLOGY; CHEMISTRY; PHYSICS; MATH; OTHER_SCIENCE;
              VISUAL_FINE_ARTS; AUDITORY_FINE_ARTS; OTHER_FINE_ARTS];
  value c :=
    match c with
    | AMERICAN_LITERATURE => "American Literature"
    | BRITISH_LITERATURE => "British Literature"
    | CLASSICAL_LITERATURE => "Classical Literature"
    | EUROPEAN_LITERATURE => "European Literature"
    | WORLD_LITERATURE => "World Literature"
    | OTHER_LITERATURE => "Other Literature"
    | AMERICAN_HISTORY => "American History"
    | ANCIENT_HISTORY => "Ancient History"
    | EUROPEAN_HISTORY => "European History"
    | WORLD_HISTORY => "World History"
    | OTHER_HISTORY => "Other History"
    | BIOLOGY => "Biology"
    | CHEMISTRY => "Chemistry"
    | PHYSICS => "Physics"
    | MATH => "Math"
    | OTHER_SCIENCE => "Other Science"
    | VISUAL_FINE_ARTS => "Visual Fine Arts"
    | AUDITORY_FINE_ARTS => "Auditory Fine Arts"
    | OTHER_FINE_ARTS => "Other Fine Arts"
    end
}.

Inductive Difficulty : Type :=
| UNRATED | MS | HS_EASY | HS_REGS | HS_HARD | HS_NATS
| ONE_DOT | TWO_DOT | THREE_DOT | FOUR_DOT | OPEN.

#[export] Instance Difficulty_enum : StrEnum Difficulty := {
  enum_name := "Difficulty";
  members := [UNRATED; MS; HS_EASY; HS_REGS; HS_HARD; HS_NATS;
              ONE_DOT; TWO_DOT; THREE_DOT; FOUR_DOT; OPEN];
  value d :=
    match d with
    | UNRATED => "0"
    | MS => "1"
    | HS_EASY => "2"
    | HS_REGS => "3"
    | HS_HARD => "4"
    | HS_NATS => "5"
    | ONE_DOT => "6"
    | TWO_DOT => "7"
    | THREE_DOT => "8"
    | FOUR_DOT => "9"
    | OPEN => "10"
    end
}.

(* ================================================================= *)
(** ** Question entities *)

Module Tossup.

Record t : Type := mk {
  question : json;
  formatted_answer : json;
  answer : json;
  category : Category;
  subcategory : Subcategory;
  set : json;
  year : json;
  packet_number : json;
  question_number : json;
  difficulty : Difficulty
}.

Definition __init__ (question formatted_answer answer : json)
    (category : Category) (subcategory : Subcategory)
    (set year packet_number question_number : json)
    (difficulty : Difficulty) : t :=
  {| question := question;
     formatted_answer :=
       if py_truthy formatted_answer then formatted_answer else answer;
     answer := answer;
     category := category;
     subcategory := subcategory;
     set := set;
     year := year;
     packet_number := packet_number;
     question_number := question_number;
     difficulty := difficulty |}.

(** The keyword arguments are evaluated in the order they are written;
    the default passed to [get] is evaluated before [get] is called,
    so the [answer] key is looked up whether or not the key
    [formatted_answer] is there. *)
Definition from_json (json : json) : result t :=
  question <- getitem json "question" ;;
  default <- getitem json "answer" ;;
  formatted_answer <- py_get json "formatted_answer" default ;;
  answer <- getitem json "answer" ;;
  c <- getitem json "category" ;;
  category <- enum_call Category c ;;
  s <- getitem json "subcategory" ;;
  subcategory <- enum_call Subcategory s ;;
  set <- getitem json "setName" ;;
  year <- getitem json "setYear" ;;
  packet_number <- getitem json "packetNumber" ;;
  question_number <- getitem json "questionNumber" ;;
  d <- getitem json "difficulty" ;;
  difficulty <- enum_call Difficulty (JStr (str d)) ;;
  Ok (__init__ question formatted_answer answer category subcategory
               set year packet_number question_number difficulty).

Definition __str__ (self : t) : json := question self.

(** [str(tossup)]: the built-in rejects a [__str__] result that is
    not a string. *)
Definition to_string (self : t) : result string := as_str (__str__ self).

End Tossup.

Module Bonus.

Record t : Type := mk {
  leadin : json;
  parts : list json;
  formatted_answers : list json;
  answers : list json;
  category : Category;
  subcategory : Subcategory;
  set : json;
  year : json;
  packet_number : json;
  question_number : json;
  difficulty : Difficulty
}.

Definition __init__ (leadin parts formatted_answers answers : json)
    (category : Category) (subcategory : Subcategory)
    (set year packet_number question_number : json)
    (difficulty : Difficulty) : result t :=
  parts' <- tuple parts ;;
  formatted_answers' <-
    tuple (if py_truthy formatted_answers then formatted_answers else answers) ;;
  answers' <- tuple answers ;;
  Ok {| leadin := leadin;
        parts := parts';
        formatted_answers := formatted_answers';
        answers := answers';
        category := category;
        subcategory := subcategory;
        set := set;
        year := year;
        packet_number := packet_number;
        question_number := question_number;
        difficulty := difficulty |}.

Definition from_json (json : json) : result t :=
  leadin <- getitem json "leadin" ;;
  parts <- getitem json "parts" ;;
  default <- getitem json "answers" ;;
  formatted_answers <- py_get json "formatted_answers" default ;;
  answers <- getitem json "answers" ;;
  c <- getitem json "category" ;;
  category <- enum_call Category c ;;
  s <- getitem json "subcategory" ;;
  subcategory <- enum_call Subcategory s ;;
  set <- getitem json "setName" ;;
  year <- getitem json "setYear" ;;
  packet_number <- getitem json "packetNumber" ;;
  question_number <- getitem json "questionNumber" ;;
  d <- getitem json "difficulty" ;;
  difficulty <- enum_call Difficulty (JStr (str d)) ;;
  __init__ leadin parts formatted_answers answers category subcategory
           set year packet_number question_number difficulty.

Definition __str__ (self : t) : result string := py_join LF (parts self).

Definition to_string (self : t) : result string := __str__ self.

End Bonus.

(* ================================================================= *)
(** ** Query response aggregate *)

Module QueryResponse.

Record t : Type := mk {
  tossups : list Tossup.t;
  bonuses : list Bonus.t;
  tossups_found : json;
  bonuses_found : json;
  query_string : json
}.

Definition __init__ (tossups : list Tossup.t) (bonuses : list Bonus.t)
    (tossups_found bonuses_found query_string : json) : t :=
  {| tossups := tossups;
     bonuses := bonuses;
     tossups_found := tossups_found;
     bonuses_found := bonuses_found;
     query_string := query_string |}.

Definition from_json (json : json) : result t :=
  ts <- getitem json "tossups" ;;
  tarr <- getitem ts "questionArray" ;;
  telems <- py_iter tarr ;;
  tossups <- mapM Tossup.from_json telems ;;
  bs <- getitem json "bonuses" ;;
  barr <- getitem bs "questionArray" ;;
  belems <- py_iter barr ;;
  bonuses <- mapM Bonus.from_json belems ;;
  ts' <- getitem json "tossups" ;;
  tossups_found <- getitem ts' "count" ;;
  bs' <- getitem json "bonuses" ;;
  bonuses_found <- getitem bs' "count" ;;
  query_string <- getitem json "queryString" ;;
  Ok (__init__ tossups bonuses tossups_found bonuses_found query_string).

Definition __str__ (self : t) : result string :=
  ts <- mapM Tossup.to_string (tossups self) ;;
  bs <- mapM Bonus.to_string (bonuses self) ;;
  Ok (join (LF ++ LF) ts ++ (LF ++ LF ++ LF) ++ join (LF ++ LF) bs).

Definition to_string (self : t) : result string := __str__ self.

End QueryResponse.

(* ================================================================= *)
(** ** Vocabulary of the specification *)

(** [v] is one of the canonical strings of the enum [E], compared
    exactly. *)
Definition recognized (E : Type) `{StrEnum E} (v : json) : bool :=
  match v with
  | JStr s => existsb (String.eqb s) (canonical_strings E)
  | _ => false
  end.

Arguments recognized E {_} v.

(** The record carries a category, subcategory or difficulty that its
    taxonomy does not know. *)
Definition unrecognized_taxonomy (d : list (string * json)) : Prop :=
  (exists v, dict_lookup "category" d = Some v /\
             recognized Category v = false) \/
  (exists v, dict_lookup "subcategory" d = Some v /\
             recognized Subcategory v = false) \/
  (exists v, dict_lookup "difficulty" d = Some v /\
             recognized Difficulty (JStr (str v)) = false).

(** Parsing and rendering are inverse to each other on the enum [E]. *)
Definition round_trips (E : Type) `{StrEnum E} : Prop :=
  (forall s, In s (canonical_strings E) ->
     exists m, enum_call E (JStr s) = Ok m /\ value m = s) /\
  (forall m : E, In (value m) (canonical_strings E) /\
                 enum_call E (JStr (value m)) = Ok m) /\
  (forall m m' : E, value m = value m' -> m = m').

Arguments round_trips E {_}.

Definition rejects_unknown (E : Type) `{StrEnum E} : Prop :=
  forall s, ~ In s (canonical_strings E) ->
    enum_call E (JStr s) = Err (ValueError enum_name (JStr s)).

Arguments rejects_unknown E {_}.

(** The exception raised by the first element of [l] on which [f]
    fails, if any. *)
Fixpoint first_error {A B : Type} (f : A -> result B) (l : list A) : option exn :=
  match l with
  | [] => None
  | x :: xs =>
      match f x with
      | Err e => Some e
      | Ok _ => first_error f xs
      end
  end.

(** Two dicts that agree on every key but [k]. *)
Definition agree_except (k : string) (d1 d2 : list (string * json)) : Prop :=
  forall k', k' <> k -> dict_lookup k' d1 = dict_lookup k' d2.

(** The keys that [from_json] reads after the content fields. *)
Definition metadata_keys : list string :=
  ["category"; "subcategory"; "setName"; "setYear"; "packetNumber";
   "questionNumber"; "difficulty"].

(** A question record with every key of the schema but
    [formatted_answer(s)]; [d] is the difficulty field. *)
Definition sample_fields (d : json) : list (string * json) :=
  [("question", JStr "Q1"); ("answer", JStr "A1");
   ("leadin", JStr "L");
   ("parts", JList [JStr "p1"; JStr "p2"; JStr "p3"]);
   ("answers", JList [JStr "a1"; JStr "a2"; JStr "a3"]);
   ("category", JStr "Science"); ("subcategory", JStr "Physics");
   ("setName", JStr "S"); ("setYear", JInt 2020);
   ("packetNumber", JInt 1); ("questionNumber", JInt 2);
   ("difficulty", d)].

Definition sample_tossup : json := JObj (sample_fields (JInt 3)).
Definition sample_bonus : json := JObj (sample_fields (JInt 3)).

(** A bonus record whose [parts] and [answers] arrays have different
    lengths. *)
Definition mismatched_bonus : json :=
  JObj [("leadin", JStr "L");
        ("parts", JList [JStr "p1"]);
        ("answers", JList [JStr "a1"; JStr "a2"]);
        ("category", JStr "Science"); ("subcategory", JStr "Physics");
        ("setName", JStr "S"); ("setYear", JInt 2020);
        ("packetNumber", JInt 1); ("questionNumber", JInt 2);
        ("difficulty", JInt 3)].

(** A record with the content fields and a category the taxonomy does
    not know, and none of the other keys. *)
Definition bogus_category_fields : list (string * json) :=
  [("question", JStr "Q1"); ("answer", JStr "A1");
   ("leadin", JStr "L"); ("parts", JList [JStr "p1"]);
   ("answers", JList [JStr "a1"]);
   ("category", JStr "Bogus")].

(** How [from_json] fails on a record [d] that lacks a metadata key:
    with the [KeyError] of an absent key, or with the [ValueError] of a
    category or subcategory that is present and unknown. *)
Definition missing_or_earlier_enum (d : list (string * json)) (e : exn) : Prop :=
  (exists k, e = KeyError k /\ dict_lookup k d = None) \/
  (exists v, e = ValueError "Category" v /\
             dict_lookup "category" d = Some v /\
             recognized Category v = false) \/
  (exists v, e = ValueError "Subcategory" v /\
             dict_lookup "subcategory" d = Some v /\
             recognized Subcategory v = false).

(** A page of two tossups out of 57 matches, and no bonus. *)
Definition paginated_response : json :=
  JObj [("tossups",
         JObj [("questionArray", JList [sample_tossup; sample_tossup]);
               ("count", JInt 57)]);
        ("bonuses",
         JObj [("questionArray", JList []); ("count", JInt 0)]);
        ("queryString", JStr "q")].

(** A response whose second tossup lacks its [question], and whose
    third lacks everything. *)
Definition broken_response : json :=
  JObj [("tossups",
         JObj [("questionArray",
                JList [sample_tossup; JObj [("answer", JStr "A2")]; JObj []]);
               ("count", JInt 3)]);
        ("bonuses",
         JObj [("questionArray", JList [sample_bonus]); ("count", JInt 1)]);
        ("queryString", JStr "q")].

(** The response of the end-to-end example: one tossup, no bonus. *)
Definition single_tossup_response : json :=
  JObj [("tossups",
         JObj [("questionArray", JList [sample_tossup]); ("count", JInt 1)]);
        ("bonuses",
         JObj [("questionArray", JList []); ("count", JInt 0)]);
        ("queryString", JStr "q")].

(** [ValidDifficulties]: the literal values the module's type aliases
    allow for a difficulty. *)
Definition ValidDifficulties : list json :=
  [JInt 0; JInt 1; JInt 2; JInt 3; JInt 4; JInt 5; JInt 6; JInt 7; JInt 8;
   JInt 9; JInt 10;
   JStr "0"; JStr "1"; JStr "2"; JStr "3"; JStr "4"; JStr "5"; JStr "6";
   JStr "7"; JStr "8"; JStr "9"; JStr "10"].

(** The keys [Tossup.from_json] and [Bonus.from_json] subscript, in the
    order they are first read. *)
Definition tossup_keys : list string :=
  ["question"; "answer"; "category"; "subcategory"; "setName"; "setYear";
   "packetNumber"; "questionNumber"; "difficulty"].

Definition bonus_keys : list string :=
  ["leadin"; "parts"; "answers"; "category"; "subcategory"; "setName";
   "setYear"; "packetNumber"; "questionNumber"; "difficulty"].

(** The keys of [ks] that come before the first occurrence of [k]. *)
Fixpoint keys_before (k : string) (ks : list string) : list string :=
  match ks with
  | [] => []
  | k' :: rest => if String.eqb k k' then [] else k' :: keys_before k rest
  end.

(** Two dicts that agree on the keys [ks]. *)
Definition agree_on (ks : list string) (d1 d2 : list (string * json)) : Prop :=
  forall k, In k ks -> dict_lookup k d1 = dict_lookup k d2.

Definition iterable (v : json) : bool := is_ok (py_iter v).

(** The seven metadata keys are present, with a known category and
    subcategory and a difficulty whose [str] is known. *)
Definition metadata_ok (d : list (string * json)) : Prop :=
  exists c s sn sy pn qn dv,
    dict_lookup "category" d = Some c /\
    dict_lookup "subcategory" d = Some s /\
    dict_lookup "setName" d = Some sn /\
    dict_lookup "setYear" d = Some sy /\
    dict_lookup "packetNumber" d = Some pn /\
    dict_lookup "questionNumber" d = Some qn /\
    dict_lookup "difficulty" d = Some dv /\
    recognized Category c = true /\
    recognized Subcategory s = true /\
    recognized Difficulty (JStr (str dv)) = true.

(** The value [Bonus.__init__] turns into [formatted_answers]. *)
Definition chosen_formatted_answers (d : list (string * json)) (a : json) : json :=
  match dict_lookup "formatted_answers" d with
  | Some v => if py_truthy v then v else a
  | None => a
  end.

(** How [from_json] can fail on the dict [d], reading the keys [ks]. *)
Definition absent_first (ks : list string) (d : list (string * json))
    (k : string) : Prop :=
  In k ks /\ dict_lookup k d = None /\
  forall k', In k' (keys_before k ks) -> dict_lookup k' d <> None.

Definition enum_failure (d : list (string * json)) (e : exn) : Prop :=
  (exists v, e = ValueError "Category" v /\
             dict_lookup "category" d = Some v /\
             recognized Category v = false) \/
  (exists v, e = ValueError "Subcategory" v /\
             dict_lookup "subcategory" d = Some v /\
             recognized Subcategory v = false) \/
  (exists dv, e = ValueError "Difficulty" (JStr (str dv)) /\
              dict_lookup "difficulty" d = Some dv /\
              recognized Difficulty (JStr (str dv)) = false).

(** A tossup record whose question is a number. *)
Definition numeric_question_tossup : json :=
  JObj [("question", JInt 5); ("answer", JStr "A1");
        ("category", JStr "Science"); ("subcategory", JStr "Physics");
        ("setName", JStr "S"); ("setYear", JInt 2020);
        ("packetNumber", JInt 1); ("questionNumber", JInt 2);
        ("difficulty", JInt 3)].

(** A bonus record whose [parts] is a number. *)
Definition scalar_parts_fields : list (string * json) :=
  [("leadin", JStr "L"); ("parts", JInt 3);
   ("answers", JList [JStr "a1"]);
   ("category", JStr "Science"); ("subcategory", JStr "Physics");
   ("setName", JStr "S"); ("setYear", JInt 2020);
   ("packetNumber", JInt 1); ("questionNumber", JInt 2);
   ("difficulty", JInt 3)].

(** The metadata keys other than [difficulty] are present, with a
    known category and subcategory. *)
Definition metadata_but_difficulty_ok (d : list (string * json)) : Prop :=
  exists c s sn sy pn qn,
    dict_lookup "category" d = Some c /\
    dict_lookup "subcategory" d = Some s /\
    dict_lookup "setName" d = Some sn /\
    dict_lookup "setYear" d = Some sy /\
    dict_lookup "packetNumber" d = Some pn /\
    dict_lookup "questionNumber" d = Some qn /\
    recognized Category c = true /\
    recognized Subcategory s = true.

(* ================================================================= *)
(** ** Facts about the built-ins and the result monad *)

Lemma getitem_obj (d : list (string * json)) (k : string) :
  getitem (JObj d) k =
  match dict_lookup k d with
  | Some v => Ok v
  | None => Err (KeyError k)
  end.
Proof. reflexivity. Qed.

Lemma getitem_ok_inv (j : json) (k : string) (v : json) :
  getitem j k = Ok v -> exists d, j = JObj d /\ dict_lookup k d = Some v.
Proof.
  destruct j; simpl; try discriminate.
  destruct (dict_lookup k l) eqn:Hl; intros Heq; inversion Heq; subst.
  eexists; split; [reflexivity | exact Hl].
Qed.

Lemma bind_ok_inv {A B : Type} (m : result A) (k : A -> result B) (b : B) :
  bind m k = Ok b -> exists a, m = Ok a /\ k a = Ok b.
Proof.
  destruct m as [a | e]; simpl; intros Hb; [| discriminate].
  exists a; split; [reflexivity | exact Hb].
Qed.

Lemma mapM_first_error {A B : Type} (f : A -> result B) (l : list A) :
  match first_error f l with
  | Some e => mapM f l = Err e
  | None => exists l', mapM f l = Ok l' /\ map f l = map Ok l'
  end.
Proof.
  induction l as [| x xs IH]; simpl.
  - exists []; split; reflexivity.
  - destruct (f x) as [y | e]; simpl; [| reflexivity].
    destruct (first_error f xs) as [e |].
    + rewrite IH; reflexivity.
    + destruct IH as [l' [Hm Hmap]]. rewrite Hm; simpl.
      exists (y :: l'); split; [reflexivity | simpl; rewrite Hmap; reflexivity].
Qed.

Lemma mapM_ok_map {A B : Type} (f : A -> result B) (l : list A) (l' : list B) :
  mapM f l = Ok l' -> map f l = map Ok l'.
Proof.
  intros Hm. pose proof (mapM_first_error f l) as Hfe.
  destruct (first_error f l) as [e |].
  - rewrite Hfe in Hm; discriminate.
  - destruct Hfe as [l'' [Hm' Hmap]]. rewrite Hm' in Hm.
    inversion Hm; subst; exact Hmap.
Qed.

Lemma map_Ok_mapM {A B : Type} (f : A -> result B) (l : list A) (l' : list B) :
  map f l = map Ok l' -> mapM f l = Ok l'.
Proof.
  revert l'; induction l as [| x xs IH]; intros [| y ys] Hmap;
    simpl in *; try discriminate; [reflexivity |].
  inversion Hmap as [[Hx Hxs]]. rewrite Hx; simpl.
  rewrite (IH ys Hxs); reflexivity.
Qed.

Lemma first_error_some {A B : Type} (f : A -> result B) (l : list A) :
  (exists x, In x l /\ is_ok (f x) = false) ->
  exists e, first_error f l = Some e.
Proof.
  induction l as [| x xs IH]; intros [y [Hin Hy]]; simpl in *; [contradiction |].
  destruct (f x) as [b | e] eqn:Hfx; [| eexists; reflexivity].
  destruct Hin as [-> | Hin]; [rewrite Hfx in Hy; discriminate |].
  apply IH; exists y; split; assumption.
Qed.

(* ================================================================= *)
(** ** Facts about the enums *)

Section EnumFacts.
Context {E : Type} `{StrEnum E}.

Lemma lookup_value_some (s : string) (m : E) :
  lookup_value s = Some m -> In m members /\ value m = s.
Proof.
  unfold lookup_value; intros Hf.
  apply find_some in Hf; destruct Hf as [Hin Heq].
  split; [exact Hin | apply String.eqb_eq; exact Heq].
Qed.

Lemma lookup_value_none (s : string) :
  ~ In s (canonical_strings E) -> lookup_value s = None.
Proof.
  intros Hnot. destruct (lookup_value s) as [m |] eqn:Hf; [| reflexivity].
  apply lookup_value_some in Hf; destruct Hf as [Hin Heq].
  exfalso; apply Hnot. subst s. unfold canonical_strings.
  apply in_map; exact Hin.
Qed.

Lemma lookup_value_canonical (s : string) :
  In s (canonical_strings E) ->
  exists m, lookup_value s = Some m /\ value m = s.
Proof.
  unfold canonical_strings; intros Hin.
  apply in_map_iff in Hin; destruct Hin as [m0 [Hv Hin]].
  destruct (lookup_value s) as [m |] eqn:Hf.
  - exists m; split; [reflexivity | apply (lookup_value_some s m Hf)].
  - unfold lookup_value in Hf.
    pose proof (find_none _ _ Hf m0 Hin) as Hno; simpl in Hno.
    rewrite Hv, String.eqb_refl in Hno; discriminate.
Qed.

Lemma recognized_true (v : json) :
  recognized E v = true <-> exists s, v = JStr s /\ In s (canonical_strings E).
Proof.
  split.
  - destruct v; simpl; try discriminate. intros Hex.
    apply existsb_exists in Hex; destruct Hex as [s' [Hin Heq]].
    apply String.eqb_eq in Heq; subst s'.
    eexists; split; [reflexivity | exact Hin].
  - intros [s [-> Hin]]; simpl. apply existsb_exists.
    exists s; split; [exact Hin | apply String.eqb_refl].
Qed.

Lemma enum_call_unrecognized (v : json) :
  recognized E v = false -> enum_call E v = Err (ValueError enum_name v).
Proof.
  intros Hrec; destruct v; try reflexivity; simpl.
  rewrite lookup_value_none; [reflexivity |].
  intros Hin. assert (recognized E (JStr s) = true) as Ht
    by (apply recognized_true; eexists; split; [reflexivity | exact Hin]).
  rewrite Ht in Hrec; discriminate.
Qed.

Lemma enum_call_ok_inv (v : json) (m : E) :
  enum_call E v = Ok m -> v = JStr (value m) /\ In m members.
Proof.
  destruct v; simpl; try discriminate.
  destruct (lookup_value s) as [m' |] eqn:Hf; [| discriminate].
  intros Heq; inversion Heq; subst m'.
  apply lookup_value_some in Hf; destruct Hf as [Hin Hv].
  subst s; split; [reflexivity | exact Hin].
Qed.

(** An enum whose members all parse back from their own value
    round-trips in both directions. *)
Lemma round_trips_intro :
  (forall m : E, In m members) ->
  (forall m : E, lookup_value (value m) = Some m) ->
  round_trips E.
Proof.
  intros Hall Hback; repeat split.
  - intros s Hin. destruct (lookup_value_canonical s Hin) as [m [Hf Hv]].
    exists m; split; [simpl; rewrite Hf; reflexivity | exact Hv].
  - unfold canonical_strings; apply in_map; apply Hall.
  - simpl; rewrite Hback; reflexivity.
  - intros m m' Hv. pose proof (Hback m) as H1. pose proof (Hback m') as H2.
    rewrite Hv in H1. rewrite H1 in H2. inversion H2; reflexivity.
Qed.

Lemma rejects_unknown_all : rejects_unknown E.
Proof.
  intros s Hnot; simpl. rewrite (lookup_value_none s Hnot); reflexivity.
Qed.
End EnumFacts.

(* ================================================================= *)
(** ** Round trip and strictness of the taxonomy enums *)

(** C1: for each of Category, Subcategory and Difficulty, every canonical
    string parses to a member whose canonical string is that string, and
    every member has one canonical string, which is in the canonical set
    and parses back to that member; distinct members have distinct
    strings. *)
Theorem taxonomy_round_trip :
  round_trips Category /\ round_trips Subcategory /\ round_trips Difficulty.
Proof.
  split; [| split]; apply round_trips_intro;
    intros m; destruct m; vm_compute; tauto.
Qed.

Lemma taxonomy_round_trip_witness :
  (exists c, enum_call Category (JStr "Fine Arts") = Ok c /\ value c = "Fine Arts") /\
  enum_call Subcategory (JStr (value MATH)) = Ok MATH /\
  (value TWO_DOT = value TWO_DOT -> TWO_DOT = TWO_DOT).
Proof.
  destruct taxonomy_round_trip as [[Hc _] [[_ [Hs _]] [_ [_ Hd]]]].
  split; [| split].
  - apply Hc. vm_compute. tauto.
  - apply Hs.
  - apply Hd.
Defined.

Lemma taxonomy_rejects_unknown_strings :
  rejects_unknown Category /\ rejects_unknown Subcategory /\
  rejects_unknown Difficulty.
Proof. split; [| split]; apply rejects_unknown_all. Qed.

(* ================================================================= *)
(** ** What an accepted record looks like *)

Ltac invert_binds H :=
  repeat (apply bind_ok_inv in H; destruct H as [? [? H]]).

Lemma py_get_ok_inv (j : json) (k : string) (default v : json) :
  py_get j k default = Ok v ->
  exists d, j = JObj d /\
    v = match dict_lookup k d with Some x => x | None => default end.
Proof.
  destruct j; simpl; try discriminate.
  intros Hg; exists l; split; [reflexivity |].
  destruct (dict_lookup k l); inversion Hg; reflexivity.
Qed.

Lemma getitem_obj_ok (d : list (string * json)) (k : string) (v : json) :
  getitem (JObj d) k = Ok v -> dict_lookup k d = Some v.
Proof.
  rewrite getitem_obj. destruct (dict_lookup k d); intros Heq; inversion Heq.
  reflexivity.
Qed.

Lemma Tossup_from_json_inv (j : json) (t : Tossup.t) :
  Tossup.from_json j = Ok t ->
  exists d q a c s sn sy pn qn dv cat sub dif,
    j = JObj d /\
    dict_lookup "question" d = Some q /\
    dict_lookup "answer" d = Some a /\
    dict_lookup "category" d = Some c /\
    dict_lookup "subcategory" d = Some s /\
    dict_lookup "setName" d = Some sn /\
    dict_lookup "setYear" d = Some sy /\
    dict_lookup "packetNumber" d = Some pn /\
    dict_lookup "questionNumber" d = Some qn /\
    dict_lookup "difficulty" d = Some dv /\
    enum_call Category c = Ok cat /\
    enum_call Subcategory s = Ok sub /\
    enum_call Difficulty (JStr (str dv)) = Ok dif /\
    t = Tossup.__init__ q
          (match dict_lookup "formatted_answer" d with
           | Some v => v
           | None => a
           end)
          a cat sub sn sy pn qn dif.
Proof.
  unfold Tossup.from_json; intros H.
  invert_binds H. inversion H; subst t; clear H.
  match goal with
  | Hq : getitem j "question" = Ok _ |- _ =>
      destruct (getitem_ok_inv _ _ _ Hq) as [d [-> _]]
  end.
  match goal with
  | Hg : py_get _ _ _ = Ok _ |- _ =>
      destruct (py_get_ok_inv _ _ _ _ Hg) as [d' [Hd' ->]]; inversion Hd'; subst d'
  end.
  repeat match goal with
  | Hg : getitem (JObj d) _ = Ok _ |- _ => apply getitem_obj_ok in Hg
  end.
  repeat match goal with
  | H1 : dict_lookup ?k d = Some ?x, H2 : dict_lookup ?k d = Some ?y |- _ =>
      rewrite H1 in H2; inversion H2; subst; clear H2
  end.
  do 13 eexists. repeat (split; [eassumption || reflexivity |]).
  reflexivity.
Qed.

Lemma Bonus_from_json_inv (j : json) (b : Bonus.t) :
  Bonus.from_json j = Ok b ->
  exists d l p a c s sn sy pn qn dv cat sub dif,
    j = JObj d /\
    dict_lookup "leadin" d = Some l /\
    dict_lookup "parts" d = Some p /\
    dict_lookup "answers" d = Some a /\
    dict_lookup "category" d = Some c /\
    dict_lookup "subcategory" d = Some s /\
    dict_lookup "setName" d = Some sn /\
    dict_lookup "setYear" d = Some sy /\
    dict_lookup "packetNumber" d = Some pn /\
    dict_lookup "questionNumber" d = Some qn /\
    dict_lookup "difficulty" d = Some dv /\
    enum_call Category c = Ok cat /\
    enum_call Subcategory s = Ok sub /\
    enum_call Difficulty (JStr (str dv)) = Ok dif /\
    Bonus.__init__ l p
      (match dict_lookup "formatted_answers" d with
       | Some v => v
       | None => a
       end)
      a cat sub sn sy pn qn dif = Ok b.
Proof.
  unfold Bonus.from_json; intros H.
  apply bind_ok_inv in H; destruct H as [? [Hq H]].
  do 14 (apply bind_ok_inv in H; destruct H as [? [? H]]).
  destruct (getitem_ok_inv _ _ _ Hq) as [d [-> _]].
  match goal with
  | Hg : py_get _ _ _ = Ok _ |- _ =>
      destruct (py_get_ok_inv _ _ _ _ Hg) as [d' [Hd' ->]]; inversion Hd'; subst d'
  end.
  repeat match goal with
  | Hg : getitem (JObj d) _ = Ok _ |- _ => apply getitem_obj_ok in Hg
  end.
  repeat match goal with
  | H1 : dict_lookup ?k d = Some ?x, H2 : dict_lookup ?k d = Some ?y |- _ =>
      rewrite H1 in H2; inversion H2; subst; clear H2
  end.
  do 14 eexists. repeat (split; [eassumption || reflexivity |]).
  exact H.
Qed.

(* ================================================================= *)
(** ** Running [from_json] on a dict, one keyword argument at a time *)

Lemma getitem_some (d : list (string * json)) (k : string) (v : json) :
  dict_lookup k d = Some v -> getitem (JObj d) k = Ok v.
Proof. intros Hl; rewrite getitem_obj, Hl; reflexivity. Qed.

Lemma getitem_none (d : list (string * json)) (k : string) :
  dict_lookup k d = None -> getitem (JObj d) k = Err (KeyError k).
Proof. intros Hl; rewrite getitem_obj, Hl; reflexivity. Qed.

Lemma py_get_obj (d : list (string * json)) (k : string) (default : json) :
  py_get (JObj d) k default =
  Ok (match dict_lookup k d with Some v => v | None => default end).
Proof. simpl; destruct (dict_lookup k d); reflexivity. Qed.

Lemma enum_call_err_inv {E : Type} `{StrEnum E} (v : json) (e : exn) :
  enum_call E v = Err e ->
  e = ValueError enum_name v /\ recognized E v = false.
Proof.
  intros He. destruct (recognized E v) eqn:Hrec.
  - apply recognized_true in Hrec; destruct Hrec as [s [-> Hin]].
    destruct (lookup_value_canonical s Hin) as [m [Hf _]].
    simpl in He; rewrite Hf in He; discriminate.
  - rewrite (enum_call_unrecognized v Hrec) in He.
    inversion He; split; reflexivity.
Qed.

Lemma enum_call_ok_recognized {E : Type} `{StrEnum E} (v : json) (m : E) :
  enum_call E v = Ok m -> recognized E v = true.
Proof.
  intros Hok. destruct (recognized E v) eqn:Hrec; [reflexivity |].
  rewrite (enum_call_unrecognized v Hrec) in Hok; discriminate.
Qed.

(** Evaluate the keyword argument at the head of the goal. A lookup
    or an enum call already known from the context is rewritten; an
    unknown one is split into its two outcomes. *)
Ltac step :=
  lazymatch goal with
  | |- context [bind (getitem (JObj ?d) ?k) _] =>
      lazymatch goal with
      | H : dict_lookup k d = Some _ |- _ => rewrite (getitem_some d k _ H)
      | H : dict_lookup k d = None |- _ => rewrite (getitem_none d k H)
      | _ =>
          let Hk := fresh "Hk" in
          destruct (dict_lookup k d) eqn:Hk;
          [ rewrite (getitem_some d k _ Hk) | rewrite (getitem_none d k Hk) ]
      end
  | |- context [bind (py_get (JObj ?d) ?k ?a) _] => rewrite (py_get_obj d k a)
  | |- context [bind (enum_call ?E ?v) _] =>
      lazymatch goal with
      | H : enum_call E v = _ |- _ => rewrite H
      | _ =>
          let He := fresh "He" in
          destruct (enum_call E v) eqn:He;
          [| apply enum_call_err_inv in He; destruct He as [-> He] ]
      end
  end; cbn [bind].

(** Close a branch in which the constructor has raised. *)
Ltac raised :=
  eexists; split; [reflexivity |];
  first [ left; reflexivity
        | right; eexists; split; [reflexivity | eassumption] ].

(* ================================================================= *)
(** ** Unrecognized taxonomy values *)

Lemma Tossup_rejects_unrecognized (d : list (string * json)) :
  unrecognized_taxonomy d ->
  exists e, Tossup.from_json (JObj d) = Err e /\
    (is_ValueError e = true \/
     exists k, e = KeyError k /\ dict_lookup k d = None).
Proof.
  intros [[v [Hl Hrec]] | [[v [Hl Hrec]] | [v [Hl Hrec]]]];
    apply enum_call_unrecognized in Hrec;
    unfold Tossup.from_json; repeat (step; try raised).
Qed.

Lemma Bonus_rejects_unrecognized (d : list (string * json)) :
  unrecognized_taxonomy d ->
  exists e, Bonus.from_json (JObj d) = Err e /\
    (is_ValueError e = true \/
     exists k, e = KeyError k /\ dict_lookup k d = None).
Proof.
  intros [[v [Hl Hrec]] | [[v [Hl Hrec]] | [v [Hl Hrec]]]];
    apply enum_call_unrecognized in Hrec;
    unfold Bonus.from_json; repeat (step; try raised).
Qed.

(** C2: a string outside an enum's canonical set is rejected with
    [ValueError] by that enum (exact comparison, so a difference in case
    is enough), and a record whose category, subcategory or difficulty is
    unrecognized is rejected by [Tossup.from_json] and [Bonus.from_json]:
    the call raises, either that [ValueError] or the [KeyError] of a
    field that is read earlier and is absent. *)
Theorem unrecognized_values_rejected :
  (rejects_unknown Category /\ rejects_unknown Subcategory /\
   rejects_unknown Difficulty) /\
  forall d, unrecognized_taxonomy d ->
    (exists e, Tossup.from_json (JObj d) = Err e /\
       (is_ValueError e = true \/
        exists k, e = KeyError k /\ dict_lookup k d = None)) /\
    (exists e, Bonus.from_json (JObj d) = Err e /\
       (is_ValueError e = true \/
        exists k, e = KeyError k /\ dict_lookup k d = None)).
Proof.
  split; [exact taxonomy_rejects_unknown_strings |].
  intros d Hun; split.
  - apply Tossup_rejects_unrecognized; exact Hun.
  - apply Bonus_rejects_unrecognized; exact Hun.
Qed.

Lemma unrecognized_values_rejected_witness :
  enum_call Category (JStr "science") =
    Err (ValueError "Category" (JStr "science")) /\
  (exists e, Tossup.from_json (JObj (sample_fields (JStr "11"))) = Err e /\
     (is_ValueError e = true \/
      exists k, e = KeyError k /\
                dict_lookup k (sample_fields (JStr "11")) = None)).
Proof.
  split.
  - apply (proj1 (proj1 unrecognized_values_rejected) "science").
    vm_compute. intuition discriminate.
  - apply (proj2 unrecognized_values_rejected (sample_fields (JStr "11"))).
    right; right. exists (JStr "11"); split; reflexivity.
Defined.

(* ================================================================= *)
(** ** Difficulty given as a number or as a numeric string *)

Lemma Bonus_init_fields (l p fa a : json) (cat : Category) (sub : Subcategory)
    (sn sy pn qn : json) (dif : Difficulty) (b : Bonus.t) :
  Bonus.__init__ l p fa a cat sub sn sy pn qn dif = Ok b ->
  tuple p = Ok (Bonus.parts b) /\
  tuple (if py_truthy fa then fa else a) = Ok (Bonus.formatted_answers b) /\
  tuple a = Ok (Bonus.answers b) /\
  Bonus.leadin b = l /\ Bonus.category b = cat /\ Bonus.subcategory b = sub /\
  Bonus.difficulty b = dif.
Proof.
  unfold Bonus.__init__; intros H. invert_binds H.
  inversion H; subst b; simpl. repeat split; assumption.
Qed.

(** Evaluate the same keyword argument on two dicts that agree on it. *)
Ltac step_both Hag :=
  lazymatch goal with
  | |- bind (getitem (JObj ?d1) ?k) _ = bind (getitem (JObj ?d2) ?k) _ =>
      rewrite (getitem_obj d1 k), (getitem_obj d2 k);
      rewrite (Hag k ltac:(discriminate));
      destruct (dict_lookup k d2); cbn [bind]; [| reflexivity]
  | |- bind (py_get (JObj ?d1) ?k ?a) _ = bind (py_get (JObj ?d2) ?k ?a) _ =>
      rewrite (py_get_obj d1 k a), (py_get_obj d2 k a);
      rewrite (Hag k ltac:(discriminate)); cbn [bind]
  | |- bind (enum_call ?E ?v) _ = bind (enum_call ?E ?v) _ =>
      destruct (enum_call E v); cbn [bind]; [| reflexivity]
  end.

Lemma from_json_int_or_string (z : Z) (d1 d2 : list (string * json)) :
  agree_except "difficulty" d1 d2 ->
  dict_lookup "difficulty" d1 = Some (JInt z) ->
  dict_lookup "difficulty" d2 = Some (JStr (str (JInt z))) ->
  Tossup.from_json (JObj d1) = Tossup.from_json (JObj d2) /\
  Bonus.from_json (JObj d1) = Bonus.from_json (JObj d2).
Proof.
  intros Hag H1 H2; split.
  - unfold Tossup.from_json. repeat step_both Hag.
    rewrite (getitem_some _ _ _ H1), (getitem_some _ _ _ H2); reflexivity.
  - unfold Bonus.from_json. repeat step_both Hag.
    rewrite (getitem_some _ _ _ H1), (getitem_some _ _ _ H2); reflexivity.
Qed.

Lemma difficulty_level_parses (z : Z) :
  (0 <= z <= 10)%Z ->
  enum_call Difficulty (JStr (str (JInt z))) =
    Ok (nth (Z.to_nat z) members UNRATED).
Proof.
  intros Hz.
  assert (z = 0 \/ z = 1 \/ z = 2 \/ z = 3 \/ z = 4 \/ z = 5 \/ z = 6 \/
          z = 7 \/ z = 8 \/ z = 9 \/ z = 10)%Z as Hcases by lia.
  repeat (destruct Hcases as [-> | Hcases]; [reflexivity |]).
  subst z; reflexivity.
Qed.

(* ================================================================= *)
(** ** The [formatted_answer(s)] fallback *)

Lemma tuple_truthy (v : json) (l : list json) :
  tuple v = Ok l -> py_truthy v = true -> l <> [].
Proof.
  destruct v as [| b | z | s | l0 | d]; simpl; try discriminate;
    intros Heq; inversion Heq; subst l.
  - destruct s; simpl; [discriminate | intros _; discriminate].
  - destruct l0; [discriminate | intros _; discriminate].
  - destruct d; simpl; [discriminate | intros _; discriminate].
Qed.

(** C4: in an accepted Tossup record, an absent [formatted_answer] key or
    a falsy value under it leaves [formatted_answer] equal to [answer],
    and a truthy value is stored as given; likewise for a Bonus, where
    [formatted_answers] falls back to [answers] as a whole and a truthy
    value is stored as the tuple of its elements. So the formatted field
    is non-empty whenever the plain one is. *)
Theorem formatted_answer_fallback :
  (forall d t, Tossup.from_json (JObj d) = Ok t ->
     dict_lookup "answer" d = Some (Tossup.answer t) /\
     (dict_lookup "formatted_answer" d = None ->
        Tossup.formatted_answer t = Tossup.answer t) /\
     (forall v, dict_lookup "formatted_answer" d = Some v ->
        py_truthy v = false ->
        Tossup.formatted_answer t = Tossup.answer t) /\
     (forall v, dict_lookup "formatted_answer" d = Some v ->
        py_truthy v = true ->
        Tossup.formatted_answer t = v) /\
     (py_truthy (Tossup.answer t) = true ->
        py_truthy (Tossup.formatted_answer t) = true)) /\
  (forall d b, Bonus.from_json (JObj d) = Ok b ->
     (exists a, dict_lookup "answers" d = Some a /\
                tuple a = Ok (Bonus.answers b)) /\
     (dict_lookup "formatted_answers" d = None ->
        Bonus.formatted_answers b = Bonus.answers b) /\
     (forall v, dict_lookup "formatted_answers" d = Some v ->
        py_truthy v = false ->
        Bonus.formatted_answers b = Bonus.answers b) /\
     (forall v, dict_lookup "formatted_answers" d = Some v ->
        py_truthy v = true ->
        tuple v = Ok (Bonus.formatted_answers b) /\
        forall l, v = JList l -> Bonus.formatted_answers b = l) /\
     (Bonus.answers b <> [] -> Bonus.formatted_answers b <> [])).
Proof.
  split.
  - intros d0 t Hok. apply Tossup_from_json_inv in Hok.
    destruct Hok as (d & q & a & c & s & sn & sy & pn & qn & dv & cat & sub &
                     dif & Hj & _ & Ha & _ & _ & _ & _ & _ & _ & _ & _ & _ &
                     _ & ->).
    inversion Hj; subst d0; clear Hj. simpl.
    split; [exact Ha |].
    destruct (dict_lookup "formatted_answer" d) as [fa |].
    + split; [discriminate |].
      split; [intros v Hv Hf; inversion Hv; subst v; rewrite Hf; reflexivity |].
      split; [intros v Hv Hf; inversion Hv; subst v; rewrite Hf; reflexivity |].
      intros Hat; destruct (py_truthy fa) eqn:Hfa; assumption.
    + split; [intros _; destruct (py_truthy a); reflexivity |].
      split; [intros v Hv; discriminate |].
      split; [intros v Hv; discriminate |].
      intros Hat; rewrite Hat; exact Hat.
  - intros d0 b Hok. apply Bonus_from_json_inv in Hok.
    destruct Hok as (d & l & p & a & c & s & sn & sy & pn & qn & dv & cat &
                     sub & dif & Hj & _ & _ & Ha & _ & _ & _ & _ & _ & _ & _ &
                     _ & _ & _ & Hinit).
    inversion Hj; subst d0; clear Hj.
    apply Bonus_init_fields in Hinit.
    destruct Hinit as (_ & Hfa & Hans & _).
    split; [exists a; split; assumption |].
    destruct (dict_lookup "formatted_answers" d) as [fa |].
    + split; [discriminate |].
      split; [| split].
      * intros v Hv Hf; inversion Hv; subst v. rewrite Hf, Hans in Hfa.
        inversion Hfa; reflexivity.
      * intros v Hv Hf; inversion Hv; subst v. rewrite Hf in Hfa.
        split; [exact Hfa |].
        intros l0 ->. simpl in Hfa; inversion Hfa; reflexivity.
      * intros Hne. destruct (py_truthy fa) eqn:Hf.
        -- apply (tuple_truthy fa _ Hfa Hf).
        -- rewrite Hans in Hfa; inversion Hfa; exact Hne.
    + assert (Bonus.formatted_answers b = Bonus.answers b) as Hsame
        by (destruct (py_truthy a); rewrite Hans in Hfa; inversion Hfa;
            reflexivity).
      split; [intros _; exact Hsame |].
      split; [intros v Hv; discriminate |].
      split; [intros v Hv; discriminate |].
      rewrite Hsame; intros Hne; exact Hne.
Qed.

Lemma formatted_answer_fallback_witness :
  (exists t, Tossup.from_json sample_tossup = Ok t /\
             Tossup.formatted_answer t = Tossup.answer t) /\
  (exists b, Bonus.from_json sample_bonus = Ok b /\
             Bonus.formatted_answers b = Bonus.answers b).
Proof.
  split.
  - eexists; split; [reflexivity |].
    destruct (proj1 formatted_answer_fallback (sample_fields (JInt 3)) _
                eq_refl) as (_ & Hnone & _).
    apply Hnone; reflexivity.
  - eexists; split; [reflexivity |].
    destruct (proj2 formatted_answer_fallback (sample_fields (JInt 3)) _
                eq_refl) as (_ & Hnone & _).
    apply Hnone; reflexivity.
Defined.

(* ================================================================= *)
(** ** The three sequences of a Bonus *)

(** C5, as stated, fails: [Bonus.from_json] accepts a record whose
    [parts] has one element and whose [answers] has two, and the Bonus
    it builds keeps those lengths. *)
Lemma bonus_lengths_can_differ :
  exists b, Bonus.from_json mismatched_bonus = Ok b /\
            length (Bonus.parts b) = 1 /\
            length (Bonus.answers b) = 2 /\
            length (Bonus.parts b) <> length (Bonus.answers b).
Proof.
  eexists; split; [reflexivity |]. simpl.
  split; [reflexivity | split; [reflexivity | discriminate]].
Qed.

(** C5, amended: in an accepted Bonus record, [parts], [answers] and
    [formatted_answers] are the elements of the record's [parts],
    [answers] and (the [formatted_answers] value if there is a truthy
    one, else [answers]), in the order given, nothing removed: the i-th
    part and the i-th answer are the i-th elements of the input arrays.
    The three lengths are those of the input arrays, hence equal when
    the arrays have equal lengths; nothing checks that they do. *)
Theorem bonus_sequences_preserved (d : list (string * json)) (b : Bonus.t) :
  Bonus.from_json (JObj d) = Ok b ->
  exists p a,
    dict_lookup "parts" d = Some p /\
    dict_lookup "answers" d = Some a /\
    let f := match dict_lookup "formatted_answers" d with
             | Some v => if py_truthy v then v else a
             | None => a
             end in
    tuple p = Ok (Bonus.parts b) /\
    tuple a = Ok (Bonus.answers b) /\
    tuple f = Ok (Bonus.formatted_answers b) /\
    forall ps ans fs, p = JList ps -> a = JList ans -> f = JList fs ->
      Bonus.parts b = ps /\ Bonus.answers b = ans /\
      Bonus.formatted_answers b = fs /\
      (forall i, nth_error (Bonus.parts b) i = nth_error ps i /\
                 nth_error (Bonus.answers b) i = nth_error ans i) /\
      (length ps = length ans -> length ans = length fs ->
       length (Bonus.parts b) = length (Bonus.answers b) /\
       length (Bonus.answers b) = length (Bonus.formatted_answers b)).
Proof.
  intros Hok. apply Bonus_from_json_inv in Hok.
  destruct Hok as (d0 & l & p & a & c & s & sn & sy & pn & qn & dv & cat &
                   sub & dif & Hj & _ & Hp & Ha & _ & _ & _ & _ & _ & _ & _ &
                   _ & _ & _ & Hinit).
  inversion Hj; subst d0; clear Hj.
  apply Bonus_init_fields in Hinit.
  destruct Hinit as (Hparts & Hfa & Hans & _).
  exists p, a. split; [exact Hp | split; [exact Ha |]].
  assert (tuple
            match dict_lookup "formatted_answers" d with
            | Some v => if py_truthy v then v else a
            | None => a
            end = Ok (Bonus.formatted_answers b)) as Hf.
  { destruct (dict_lookup "formatted_answers" d) as [v |]; [exact Hfa |].
    destruct (py_truthy a); exact Hfa. }
  cbv zeta.
  split; [exact Hparts | split; [exact Hans | split; [exact Hf |]]].
  intros ps ans fs -> ->. intros Hfs. rewrite Hfs in Hf.
  simpl in Hparts, Hans, Hf.
  inversion Hparts as [Hps]. inversion Hans as [Has]. inversion Hf as [Hfl].
  split; [reflexivity | split; [reflexivity | split; [reflexivity |]]].
  split; [intros i; split; reflexivity |].
  intros Hlen1 Hlen2; split; assumption.
Qed.

Lemma bonus_sequences_preserved_witness :
  exists b, Bonus.from_json sample_bonus = Ok b /\
    Bonus.parts b = [JStr "p1"; JStr "p2"; JStr "p3"] /\
    Bonus.answers b = [JStr "a1"; JStr "a2"; JStr "a3"] /\
    Bonus.formatted_answers b = [JStr "a1"; JStr "a2"; JStr "a3"].
Proof.
  eexists; split; [reflexivity |].
  destruct (bonus_sequences_preserved (sample_fields (JInt 3)) _ eq_refl)
    as (p & a & Hp & Ha & _ & _ & _ & Hlists).
  inversion Hp; subst p. inversion Ha; subst a.
  destruct (Hlists _ _ _ eq_refl eq_refl eq_refl) as (H1 & H2 & H3 & _).
  split; [exact H1 | split; [exact H2 | exact H3]].
Defined.

(* ================================================================= *)
(** ** Absent fields *)

Ltac missing :=
  eexists; split; [reflexivity | split; [eassumption | simpl; tauto]].

(** C6: a record without [question] or without [answer] makes
    [Tossup.from_json] raise [KeyError]; a record without [leadin],
    [parts] or [answers] makes [Bonus.from_json] raise [KeyError]. The
    key reported is one of those that are absent, and no entity is
    returned. *)
Theorem content_fields_required (d : list (string * json)) :
  (dict_lookup "question" d = None \/ dict_lookup "answer" d = None ->
   exists k, Tossup.from_json (JObj d) = Err (KeyError k) /\
             dict_lookup k d = None /\ In k ["question"; "answer"]) /\
  (dict_lookup "leadin" d = None \/ dict_lookup "parts" d = None \/
   dict_lookup "answers" d = None ->
   exists k, Bonus.from_json (JObj d) = Err (KeyError k) /\
             dict_lookup k d = None /\ In k ["leadin"; "parts"; "answers"]).
Proof.
  split.
  - intros [Hq | Ha]; unfold Tossup.from_json; repeat (step; try missing).
  - intros [Hl | [Hp | Ha]]; unfold Bonus.from_json;
      repeat (step; try missing).
Qed.

Lemma content_fields_required_witness :
  exists k, Tossup.from_json (JObj [("answer", JStr "A1")]) = Err (KeyError k) /\
            dict_lookup k [("answer", JStr "A1")] = None /\
            In k ["question"; "answer"].
Proof.
  apply (proj1 (content_fields_required [("answer", JStr "A1")])).
  left; reflexivity.
Defined.

(** C10, as stated, fails: a record that lacks [subcategory] (and the
    keys after it) but has an unknown category is rejected with
    [ValueError], not with [KeyError], because the category is parsed
    before the later keys are read. *)
Lemma absent_metadata_not_always_KeyError :
  In "subcategory" metadata_keys /\
  dict_lookup "subcategory" bogus_category_fields = None /\
  Tossup.from_json (JObj bogus_category_fields) =
    Err (ValueError "Category" (JStr "Bogus")) /\
  Bonus.from_json (JObj bogus_category_fields) =
    Err (ValueError "Category" (JStr "Bogus")).
Proof.
  split; [simpl; tauto |]. split; [reflexivity |].
  split; reflexivity.
Qed.

Ltac raised_early :=
  eexists; split; [reflexivity |];
  first [ left; eexists; split; [reflexivity | eassumption]
        | right; left; eexists; split;
            [reflexivity | split; [first [eassumption | reflexivity] | eassumption]]
        | right; right; eexists; split;
            [reflexivity | split; [first [eassumption | reflexivity] | eassumption]] ].

Lemma missing_or_earlier_enum_KeyError (d : list (string * json)) (e : exn) :
  missing_or_earlier_enum d e ->
  (forall v, dict_lookup "category" d = Some v -> recognized Category v = true) ->
  (forall v, dict_lookup "subcategory" d = Some v ->
             recognized Subcategory v = true) ->
  exists k, e = KeyError k /\ dict_lookup k d = None.
Proof.
  intros [Hk | [[v [_ [Hl Hrec]]] | [v [_ [Hl Hrec]]]]] Hc Hs.
  - exact Hk.
  - rewrite (Hc v Hl) in Hrec; discriminate.
  - rewrite (Hs v Hl) in Hrec; discriminate.
Qed.

(** C10, amended: a record that lacks any of [category], [subcategory],
    [setName], [setYear], [packetNumber], [questionNumber], [difficulty]
    is rejected by [Tossup.from_json] and by [Bonus.from_json], and no
    entity is returned. The exception is the [KeyError] of an absent
    key, unless a category or subcategory that is present and unknown
    is reached first, which raises its [ValueError]; so it is a
    [KeyError] whenever the category and subcategory that are present
    are known. A record with all these keys and no [formatted_answer]
    is accepted. *)
Theorem metadata_fields_required (d : list (string * json)) (k : string) :
  In k metadata_keys -> dict_lookup k d = None ->
  (exists e, Tossup.from_json (JObj d) = Err e /\ missing_or_earlier_enum d e) /\
  (exists e, Bonus.from_json (JObj d) = Err e /\ missing_or_earlier_enum d e) /\
  ((forall v, dict_lookup "category" d = Some v ->
              recognized Category v = true) ->
   (forall v, dict_lookup "subcategory" d = Some v ->
              recognized Subcategory v = true) ->
   (exists k', Tossup.from_json (JObj d) = Err (KeyError k') /\
               dict_lookup k' d = None) /\
   (exists k', Bonus.from_json (JObj d) = Err (KeyError k') /\
               dict_lookup k' d = None)) /\
  (dict_lookup "formatted_answer" (sample_fields (JInt 3)) = None /\
   is_ok (Tossup.from_json sample_tossup) = true /\
   dict_lookup "formatted_answers" (sample_fields (JInt 3)) = None /\
   is_ok (Bonus.from_json sample_bonus) = true).
Proof.
  intros Hin Hk.
  assert (exists e, Tossup.from_json (JObj d) = Err e /\
                    missing_or_earlier_enum d e) as Ht.
  { unfold missing_or_earlier_enum, metadata_keys in *; simpl in Hin.
    repeat (destruct Hin as [<- | Hin];
            [unfold Tossup.from_json; repeat (step; try raised_early) |]).
    contradiction. }
  assert (exists e, Bonus.from_json (JObj d) = Err e /\
                    missing_or_earlier_enum d e) as Hb.
  { unfold missing_or_earlier_enum, metadata_keys in *; simpl in Hin.
    repeat (destruct Hin as [<- | Hin];
            [unfold Bonus.from_json; repeat (step; try raised_early) |]).
    contradiction. }
  split; [exact Ht | split; [exact Hb | split]].
  - intros Hc Hs. destruct Ht as [e [He Hkind]]. destruct Hb as [e' [He' Hkind']].
    destruct (missing_or_earlier_enum_KeyError d e Hkind Hc Hs) as [k1 [-> Hk1]].
    destruct (missing_or_earlier_enum_KeyError d e' Hkind' Hc Hs) as [k2 [-> Hk2]].
    split; [exists k1 | exists k2]; split; assumption.
  - repeat split; reflexivity.
Qed.

Lemma metadata_fields_required_witness :
  exists e, Tossup.from_json (JObj bogus_category_fields) = Err e /\
            missing_or_earlier_enum bogus_category_fields e.
Proof.
  assert (In "setYear" metadata_keys) as Hin by (simpl; tauto).
  apply (proj1 (metadata_fields_required bogus_category_fields "setYear"
                  Hin eq_refl)).
Defined.

(* ================================================================= *)
(** ** The query response aggregate *)

Lemma map_Ok_length {A : Type} (rs : list (result A)) (l : list A) :
  rs = map Ok l -> length l = length rs.
Proof. intros ->; rewrite length_map; reflexivity. Qed.

(** C7: when [QueryResponse.from_json] succeeds, its [tossups] are the
    results of [Tossup.from_json] on the elements of
    [tossups.questionArray], one per element and in the same order, its
    [bonuses] likewise from [bonuses.questionArray], and [tossups_found],
    [bonuses_found] and [query_string] are the two [count] fields and
    [queryString] as found. The count is not compared with the list: a
    response with two tossups and count 57 is accepted as such. *)
Theorem query_response_contents :
  (forall j qr, QueryResponse.from_json j = Ok qr ->
     exists ts tarr telems bs barr belems,
       getitem j "tossups" = Ok ts /\
       getitem ts "questionArray" = Ok tarr /\
       py_iter tarr = Ok telems /\
       map Tossup.from_json telems = map Ok (QueryResponse.tossups qr) /\
       length (QueryResponse.tossups qr) = length telems /\
       getitem j "bonuses" = Ok bs /\
       getitem bs "questionArray" = Ok barr /\
       py_iter barr = Ok belems /\
       map Bonus.from_json belems = map Ok (QueryResponse.bonuses qr) /\
       length (QueryResponse.bonuses qr) = length belems /\
       getitem ts "count" = Ok (QueryResponse.tossups_found qr) /\
       getitem bs "count" = Ok (QueryResponse.bonuses_found qr) /\
       getitem j "queryString" = Ok (QueryResponse.query_string qr)) /\
  (exists qr, QueryResponse.from_json paginated_response = Ok qr /\
     length (QueryResponse.tossups qr) = 2 /\
     QueryResponse.tossups_found qr = JInt 57).
Proof.
  split.
  - intros j qr H. unfold QueryResponse.from_json in H.
    apply bind_ok_inv in H; destruct H as [ts [Hts H]].
    apply bind_ok_inv in H; destruct H as [tarr [Htarr H]].
    apply bind_ok_inv in H; destruct H as [telems [Htel H]].
    apply bind_ok_inv in H; destruct H as [tossups [Htoss H]].
    apply bind_ok_inv in H; destruct H as [bs [Hbs H]].
    apply bind_ok_inv in H; destruct H as [barr [Hbarr H]].
    apply bind_ok_inv in H; destruct H as [belems [Hbel H]].
    apply bind_ok_inv in H; destruct H as [bonuses [Hbon H]].
    apply bind_ok_inv in H; destruct H as [ts' [Hts' H]].
    apply bind_ok_inv in H; destruct H as [tf [Htf H]].
    apply bind_ok_inv in H; destruct H as [bs' [Hbs' H]].
    apply bind_ok_inv in H; destruct H as [bf [Hbf H]].
    apply bind_ok_inv in H; destruct H as [qs [Hqs H]].
    inversion H; subst qr; clear H. simpl.
    rewrite Hts in Hts'; inversion Hts'; subst ts'.
    rewrite Hbs in Hbs'; inversion Hbs'; subst bs'.
    apply mapM_ok_map in Htoss. apply mapM_ok_map in Hbon.
    exists ts, tarr, telems, bs, barr, belems.
    repeat (split; [assumption || (rewrite <- (length_map Tossup.from_json);
                                   apply map_Ok_length; assumption)
                               || (rewrite <- (length_map Bonus.from_json);
                                   apply map_Ok_length; assumption) |]).
    assumption.
  - eexists; split; [reflexivity |]. split; reflexivity.
Qed.

Lemma query_response_contents_witness :
  exists qr, QueryResponse.from_json paginated_response = Ok qr /\
    map Tossup.from_json [sample_tossup; sample_tossup] =
      map Ok (QueryResponse.tossups qr) /\
    QueryResponse.query_string qr = JStr "q".
Proof.
  eexists; split; [reflexivity |].
  destruct (proj1 query_response_contents paginated_response _ eq_refl)
    as (ts & tarr & telems & bs & barr & belems & Hts & Htarr & Htel & Hmap &
        _ & _ & _ & _ & _ & _ & _ & _ & Hqs).
  inversion Hts; subst ts. inversion Htarr; subst tarr.
  inversion Htel; subst telems. inversion Hqs.
  split; [exact Hmap | reflexivity].
Defined.

(** C8: with the two question arrays in place, if some element of
    [tossups.questionArray] fails to parse, [QueryResponse.from_json]
    raises what the first such element raises; if every tossup parses
    and some element of [bonuses.questionArray] fails, it raises what the
    first failing bonus raises. Either way no aggregate is returned. *)
Theorem first_failure_aborts (j ts tarr : json) (telems : list json) :
  getitem j "tossups" = Ok ts ->
  getitem ts "questionArray" = Ok tarr ->
  py_iter tarr = Ok telems ->
  ((exists x, In x telems /\ is_ok (Tossup.from_json x) = false) ->
   exists e, first_error Tossup.from_json telems = Some e /\
             QueryResponse.from_json j = Err e) /\
  (forall bs barr belems,
     first_error Tossup.from_json telems = None ->
     getitem j "bonuses" = Ok bs ->
     getitem bs "questionArray" = Ok barr ->
     py_iter barr = Ok belems ->
     (exists x, In x belems /\ is_ok (Bonus.from_json x) = false) ->
     exists e, first_error Bonus.from_json belems = Some e /\
               QueryResponse.from_json j = Err e).
Proof.
  intros Hts Htarr Htel; split.
  - intros Hbad. apply first_error_some in Hbad; destruct Hbad as [e He].
    exists e; split; [exact He |].
    unfold QueryResponse.from_json. rewrite Hts; cbn [bind].
    rewrite Htarr; cbn [bind]. rewrite Htel; cbn [bind].
    pose proof (mapM_first_error Tossup.from_json telems) as Hm.
    rewrite He in Hm. rewrite Hm; reflexivity.
  - intros bs barr belems Hnone Hbs Hbarr Hbel Hbad.
    apply first_error_some in Hbad; destruct Hbad as [e He].
    exists e; split; [exact He |].
    unfold QueryResponse.from_json. rewrite Hts; cbn [bind].
    rewrite Htarr; cbn [bind]. rewrite Htel; cbn [bind].
    pose proof (mapM_first_error Tossup.from_json telems) as Hm.
    rewrite Hnone in Hm. destruct Hm as [l' [Hm _]]. rewrite Hm; cbn [bind].
    rewrite Hbs; cbn [bind]. rewrite Hbarr; cbn [bind].
    rewrite Hbel; cbn [bind].
    pose proof (mapM_first_error Bonus.from_json belems) as Hm'.
    rewrite He in Hm'. rewrite Hm'; reflexivity.
Qed.

Lemma first_failure_aborts_witness :
  exists e,
    first_error Tossup.from_json
      [sample_tossup; JObj [("answer", JStr "A2")]; JObj []] = Some e /\
    QueryResponse.from_json broken_response = Err e.
Proof.
  apply (proj1 (first_failure_aborts broken_response _ _ _
                  eq_refl eq_refl eq_refl)).
  exists (JObj [("answer", JStr "A2")]); split; [simpl; tauto | reflexivity].
Defined.

(* ================================================================= *)
(** ** Plain-text rendering *)

(** C9, as stated, fails for a Bonus: its parts are joined by one line
    break each, with no blank line between them. *)
Lemma bonus_parts_not_blank_line_separated :
  exists b, Bonus.from_json sample_bonus = Ok b /\
    Bonus.to_string b = Ok ("p1" ++ LF ++ "p2" ++ LF ++ "p3") /\
    Bonus.to_string b <> Ok (join (LF ++ LF) ["p1"; "p2"; "p3"]).
Proof.
  eexists; split; [reflexivity |].
  split; [reflexivity | vm_compute; discriminate].
Qed.

Lemma py_join_strings (sep : string) (l : list string) :
  py_join sep (map JStr l) = Ok (join sep l).
Proof.
  unfold py_join. rewrite (map_Ok_mapM as_str (map JStr l) l); [reflexivity |].
  induction l as [| x xs IH]; simpl; [reflexivity | rewrite IH; reflexivity].
Qed.

(* ================================================================= *)
(** ** Which records are accepted *)

Lemma enum_call_recognized {E : Type} `{StrEnum E} (v : json) :
  recognized E v = true -> exists m, enum_call E v = Ok m.
Proof.
  intros Hrec. destruct (enum_call E v) as [m | e] eqn:Hcall.
  - exists m; reflexivity.
  - apply enum_call_err_inv in Hcall. destruct Hcall as [_ Hno].
    rewrite Hrec in Hno; discriminate.
Qed.

Lemma Bonus_init_error (l p fa a : json) (cat : Category) (sub : Subcategory)
    (sn sy pn qn : json) (dif : Difficulty) (e : exn) :
  Bonus.__init__ l p fa a cat sub sn sy pn qn dif = Err e -> e = TypeError.
Proof.
  unfold Bonus.__init__, tuple.
  destruct p; simpl; try (intros H; inversion H; reflexivity);
    destruct (if py_truthy fa then fa else a); simpl;
    try (intros H; inversion H; reflexivity);
    destruct a; simpl; intros H; inversion H; reflexivity.
Qed.

Lemma Bonus_init_iterable (l p fa a : json) (cat : Category) (sub : Subcategory)
    (sn sy pn qn : json) (dif : Difficulty) :
  is_ok (Bonus.__init__ l p fa a cat sub sn sy pn qn dif) =
  (iterable p && iterable (if py_truthy fa then fa else a) && iterable a)%bool.
Proof.
  unfold Bonus.__init__, tuple, iterable.
  destruct (py_iter p); simpl; [| reflexivity].
  destruct (py_iter (if py_truthy fa then fa else a)); simpl; [| reflexivity].
  destruct (py_iter a); reflexivity.
Qed.

(** Bring the facts of [metadata_ok] into the context, with the enum
    calls they make succeed. *)
Ltac open_metadata H :=
  destruct H as (?c & ?s & ?sn & ?sy & ?pn & ?qn & ?dv &
                 ?Hc & ?Hs & ?Hsn & ?Hsy & ?Hpn & ?Hqn & ?Hdv & Hrc & Hrs & Hrd);
  apply enum_call_recognized in Hrc; destruct Hrc as [?cat Hrc];
  apply enum_call_recognized in Hrs; destruct Hrs as [?sub Hrs];
  apply enum_call_recognized in Hrd; destruct Hrd as [?dif Hrd].

(** A dict is accepted by [Tossup.from_json] exactly when it has
    [question], [answer] and the seven metadata keys, with a known
    category, subcategory and difficulty. *)
Theorem Tossup_accepted_iff (d : list (string * json)) :
  is_ok (Tossup.from_json (JObj d)) = true <->
  (exists q a, dict_lookup "question" d = Some q /\
               dict_lookup "answer" d = Some a) /\
  metadata_ok d.
Proof.
  split.
  - destruct (Tossup.from_json (JObj d)) as [t | e] eqn:Hok; [| discriminate].
    intros _. apply Tossup_from_json_inv in Hok.
    destruct Hok as (d0 & q & a & c & s & sn & sy & pn & qn & dv & cat & sub &
                     dif & Hj & Hq & Ha & Hc & Hs & Hsn & Hsy & Hpn & Hqn &
                     Hdv & Hcat & Hsub & Hdif & _).
    inversion Hj; subst d0; clear Hj.
    split; [exists q, a; split; assumption |].
    exists c, s, sn, sy, pn, qn, dv.
    repeat (split; [assumption |]).
    split; [apply (enum_call_ok_recognized _ _ Hcat) |].
    split; [apply (enum_call_ok_recognized _ _ Hsub) |].
    apply (enum_call_ok_recognized _ _ Hdif).
  - intros [(q & a & Hq & Ha) Hmeta]. open_metadata Hmeta.
    unfold Tossup.from_json. repeat step. reflexivity.
Qed.

Lemma Tossup_accepted_iff_witness :
  is_ok (Tossup.from_json sample_tossup) = true.
Proof.
  apply (proj2 (Tossup_accepted_iff (sample_fields (JInt 3)))).
  split.
  - exists (JStr "Q1"), (JStr "A1"); split; reflexivity.
  - exists (JStr "Science"), (JStr "Physics"), (JStr "S"), (JInt 2020),
      (JInt 1), (JInt 2), (JInt 3).
    repeat (split; [reflexivity |]). reflexivity.
Defined.

Lemma chosen_formatted_answers_eq (d : list (string * json)) (a : json) :
  (let fa := match dict_lookup "formatted_answers" d with
             | Some v => v
             | None => a
             end in
   if py_truthy fa then fa else a) = chosen_formatted_answers d a.
Proof.
  unfold chosen_formatted_answers.
  destruct (dict_lookup "formatted_answers" d) as [v |]; simpl;
    [reflexivity | destruct (py_truthy a); reflexivity].
Qed.

(** A dict is accepted by [Bonus.from_json] exactly when it has [leadin],
    [parts], [answers] and the seven metadata keys, with a known
    category, subcategory and difficulty, and [parts], [answers] and
    the value chosen for [formatted_answers] can be iterated (each is a
    list, a string or a dict). *)
Theorem Bonus_accepted_iff (d : list (string * json)) :
  is_ok (Bonus.from_json (JObj d)) = true <->
  exists l p a,
    dict_lookup "leadin" d = Some l /\
    dict_lookup "parts" d = Some p /\
    dict_lookup "answers" d = Some a /\
    metadata_ok d /\
    iterable p = true /\ iterable a = true /\
    iterable (chosen_formatted_answers d a) = true.
Proof.
  split.
  - destruct (Bonus.from_json (JObj d)) as [b | e] eqn:Hok; [| discriminate].
    intros _. apply Bonus_from_json_inv in Hok.
    destruct Hok as (d0 & l & p & a & c & s & sn & sy & pn & qn & dv & cat &
                     sub & dif & Hj & Hl & Hp & Ha & Hc & Hs & Hsn & Hsy &
                     Hpn & Hqn & Hdv & Hcat & Hsub & Hdif & Hinit).
    inversion Hj; subst d0; clear Hj.
    exists l, p, a. repeat (split; [assumption |]).
    split.
    { exists c, s, sn, sy, pn, qn, dv.
      repeat (split; [assumption |]).
      split; [apply (enum_call_ok_recognized _ _ Hcat) |].
      split; [apply (enum_call_ok_recognized _ _ Hsub) |].
      apply (enum_call_ok_recognized _ _ Hdif). }
    assert (is_ok (Bonus.__init__ l p
                     match dict_lookup "formatted_answers" d with
                     | Some v => v
                     | None => a
                     end a cat sub sn sy pn qn dif) = true) as Hit
      by (rewrite Hinit; reflexivity).
    rewrite Bonus_init_iterable in Hit.
    pose proof (chosen_formatted_answers_eq d a) as Hch; cbv zeta in Hch.
    rewrite Hch in Hit.
    apply andb_true_iff in Hit; destruct Hit as [Hit Hita].
    apply andb_true_iff in Hit; destruct Hit as [Hitp Hitf].
    split; [exact Hitp | split; [exact Hita | exact Hitf]].
  - intros (l & p & a & Hl & Hp & Ha & Hmeta & Hitp & Hita & Hitf).
    open_metadata Hmeta.
    unfold Bonus.from_json. repeat step.
    rewrite Bonus_init_iterable.
    pose proof (chosen_formatted_answers_eq d a) as Hch; cbv zeta in Hch.
    rewrite Hch, Hitp, Hita, Hitf; reflexivity.
Qed.

Lemma Bonus_accepted_iff_witness :
  is_ok (Bonus.from_json sample_bonus) = true.
Proof.
  apply (proj2 (Bonus_accepted_iff (sample_fields (JInt 3)))).
  exists (JStr "L"), (JList [JStr "p1"; JStr "p2"; JStr "p3"]),
    (JList [JStr "a1"; JStr "a2"; JStr "a3"]).
  repeat (split; [reflexivity |]).
  split; [| repeat split; reflexivity].
  exists (JStr "Science"), (JStr "Physics"), (JStr "S"), (JInt 2020),
    (JInt 1), (JInt 2), (JInt 3).
  repeat (split; [reflexivity |]). reflexivity.
Defined.

(** When every key is there and the taxonomy values are known, a
    [parts], [answers] or chosen [formatted_answers] that cannot be
    iterated (a number, a boolean or null) makes [Bonus.from_json] raise
    [TypeError]. *)
Theorem Bonus_scalar_sequence_TypeError (d : list (string * json))
    (l p a : json) :
  dict_lookup "leadin" d = Some l ->
  dict_lookup "parts" d = Some p ->
  dict_lookup "answers" d = Some a ->
  metadata_ok d ->
  (iterable p && iterable (chosen_formatted_answers d a) && iterable a)%bool
    = false ->
  Bonus.from_json (JObj d) = Err TypeError.
Proof.
  intros Hl Hp Ha Hmeta Hno. open_metadata Hmeta.
  unfold Bonus.from_json. repeat step.
  pose proof (chosen_formatted_answers_eq d a) as Hch; cbv zeta in Hch.
  match goal with
  | |- ?init = _ =>
      destruct init as [b | e] eqn:Hinit;
      [ assert (is_ok init = true) as Hit by (rewrite Hinit; reflexivity)
      | apply Bonus_init_error in Hinit; rewrite Hinit; reflexivity ]
  end.
  rewrite Bonus_init_iterable, Hch, Hno in Hit; discriminate.
Qed.

Lemma Bonus_scalar_sequence_TypeError_witness :
  Bonus.from_json (JObj scalar_parts_fields) = Err TypeError.
Proof.
  apply (Bonus_scalar_sequence_TypeError scalar_parts_fields
           (JStr "L") (JInt 3) (JList [JStr "a1"]));
    try reflexivity.
  exists (JStr "Science"), (JStr "Physics"), (JStr "S"), (JInt 2020),
    (JInt 1), (JInt 2), (JInt 3).
  repeat (split; [reflexivity |]). reflexivity.
Defined.

(* ================================================================= *)
(** ** Where the fields of an entity come from *)

(** The fields of an accepted Tossup are the record's values under the
    schema's names, unchanged: [setName], [setYear], [packetNumber] and
    [questionNumber] become [set], [year], [packet_number] and
    [question_number]; the category and subcategory strings are the
    canonical strings of the enum fields, and the difficulty member's
    canonical string is [str] of the record's difficulty. *)
Theorem Tossup_fields_from_record (d : list (string * json)) (t : Tossup.t) :
  Tossup.from_json (JObj d) = Ok t ->
  dict_lookup "question" d = Some (Tossup.question t) /\
  dict_lookup "answer" d = Some (Tossup.answer t) /\
  dict_lookup "setName" d = Some (Tossup.set t) /\
  dict_lookup "setYear" d = Some (Tossup.year t) /\
  dict_lookup "packetNumber" d = Some (Tossup.packet_number t) /\
  dict_lookup "questionNumber" d = Some (Tossup.question_number t) /\
  dict_lookup "category" d = Some (JStr (value (Tossup.category t))) /\
  dict_lookup "subcategory" d = Some (JStr (value (Tossup.subcategory t))) /\
  exists dv, dict_lookup "difficulty" d = Some dv /\
             str dv = value (Tossup.difficulty t).
Proof.
  intros Hok. apply Tossup_from_json_inv in Hok.
  destruct Hok as (d0 & q & a & c & s & sn & sy & pn & qn & dv & cat & sub &
                   dif & Hj & Hq & Ha & Hc & Hs & Hsn & Hsy & Hpn & Hqn &
                   Hdv & Hcat & Hsub & Hdif & ->).
  inversion Hj; subst d0; clear Hj. simpl.
  apply enum_call_ok_inv in Hcat; destruct Hcat as [-> _].
  apply enum_call_ok_inv in Hsub; destruct Hsub as [-> _].
  apply enum_call_ok_inv in Hdif; destruct Hdif as [Hdif _].
  repeat (split; [assumption |]).
  exists dv; split; [assumption | inversion Hdif; reflexivity].
Qed.

Lemma Tossup_fields_from_record_witness :
  exists t, Tossup.from_json sample_tossup = Ok t /\
            Tossup.set t = JStr "S" /\ Tossup.year t = JInt 2020.
Proof.
  eexists; split; [reflexivity |].
  destruct (Tossup_fields_from_record (sample_fields (JInt 3)) _ eq_refl)
    as (_ & _ & Hset & Hyear & _).
  inversion Hset; inversion Hyear; split; reflexivity.
Defined.

(** The same for an accepted Bonus. *)
Theorem Bonus_fields_from_record (d : list (string * json)) (b : Bonus.t) :
  Bonus.from_json (JObj d) = Ok b ->
  dict_lookup "leadin" d = Some (Bonus.leadin b) /\
  dict_lookup "setName" d = Some (Bonus.set b) /\
  dict_lookup "setYear" d = Some (Bonus.year b) /\
  dict_lookup "packetNumber" d = Some (Bonus.packet_number b) /\
  dict_lookup "questionNumber" d = Some (Bonus.question_number b) /\
  dict_lookup "category" d = Some (JStr (value (Bonus.category b))) /\
  dict_lookup "subcategory" d = Some (JStr (value (Bonus.subcategory b))) /\
  exists dv, dict_lookup "difficulty" d = Some dv /\
             str dv = value (Bonus.difficulty b).
Proof.
  intros Hok. apply Bonus_from_json_inv in Hok.
  destruct Hok as (d0 & l & p & a & c & s & sn & sy & pn & qn & dv & cat &
                   sub & dif & Hj & Hl & Hp & Ha & Hc & Hs & Hsn & Hsy &
                   Hpn & Hqn & Hdv & Hcat & Hsub & Hdif & Hinit).
  inversion Hj; subst d0; clear Hj.
  unfold Bonus.__init__ in Hinit. invert_binds Hinit.
  inversion Hinit; subst b; clear Hinit. simpl.
  apply enum_call_ok_inv in Hcat; destruct Hcat as [-> _].
  apply enum_call_ok_inv in Hsub; destruct Hsub as [-> _].
  apply enum_call_ok_inv in Hdif; destruct Hdif as [Hdif _].
  repeat (split; [assumption |]).
  exists dv; split; [assumption | inversion Hdif; reflexivity].
Qed.

Lemma Bonus_fields_from_record_witness :
  exists b, Bonus.from_json sample_bonus = Ok b /\
            Bonus.leadin b = JStr "L" /\ Bonus.year b = JInt 2020.
Proof.
  eexists; split; [reflexivity |].
  destruct (Bonus_fields_from_record (sample_fields (JInt 3)) _ eq_refl)
    as (Hl & _ & Hyear & _).
  inversion Hl; inversion Hyear; split; reflexivity.
Defined.

(* ================================================================= *)
(** ** Keys outside the schema *)

Ltac step_agree Hag :=
  lazymatch goal with
  | |- bind (getitem (JObj ?d1) ?k) _ = bind (getitem (JObj ?d2) ?k) _ =>
      rewrite (getitem_obj d1 k), (getitem_obj d2 k);
      rewrite (Hag k ltac:(simpl; tauto));
      destruct (dict_lookup k d2); cbn [bind]; [| reflexivity]
  | |- bind (py_get (JObj ?d1) ?k ?a) _ = bind (py_get (JObj ?d2) ?k ?a) _ =>
      rewrite (py_get_obj d1 k a), (py_get_obj d2 k a);
      rewrite (Hag k ltac:(simpl; tauto)); cbn [bind]
  | |- bind (enum_call ?E ?v) _ = bind (enum_call ?E ?v) _ =>
      destruct (enum_call E v); cbn [bind]; [| reflexivity]
  end.

(** [from_json] looks at nothing but the keys of the schema: two dicts
    that agree on them, whatever else they hold and in whatever order,
    give the same entity or the same exception. *)
Theorem from_json_reads_schema_keys_only (d1 d2 : list (string * json)) :
  (agree_on ("formatted_answer" :: tossup_keys) d1 d2 ->
   Tossup.from_json (JObj d1) = Tossup.from_json (JObj d2)) /\
  (agree_on ("formatted_answers" :: bonus_keys) d1 d2 ->
   Bonus.from_json (JObj d1) = Bonus.from_json (JObj d2)).
Proof.
  split; intros Hag.
  - unfold Tossup.from_json. repeat step_agree Hag. reflexivity.
  - unfold Bonus.from_json. repeat step_agree Hag. reflexivity.
Qed.

Lemma from_json_reads_schema_keys_only_witness :
  Tossup.from_json (JObj (("_id", JStr "x") :: sample_fields (JInt 3))) =
  Tossup.from_json (JObj (sample_fields (JInt 3))).
Proof.
  apply (proj1 (from_json_reads_schema_keys_only
                  (("_id", JStr "x") :: sample_fields (JInt 3))
                  (sample_fields (JInt 3)))).
  intros k Hin; simpl in Hin.
  repeat (destruct Hin as [<- | Hin]; [reflexivity |]). contradiction.
Defined.

(* ================================================================= *)
(** ** Which exception a rejected record raises *)

(** Close a branch of [from_json] that has raised, by naming the way it
    failed. *)
Ltac classify into_enum :=
  let Herr := fresh "Herr" in
  intros Herr; inversion Herr; subst; clear Herr;
  unfold absent_first, enum_failure;
  first
    [ left; eexists; split; [reflexivity |];
      split; [simpl; tauto |]; split; [assumption |];
      let k' := fresh "k'" in
      let Hin := fresh "Hin" in
      intros k' Hin; simpl in Hin;
      repeat (destruct Hin as [<- | Hin]; [congruence |]); contradiction
    | into_enum; left; eexists; split; [reflexivity | split; assumption]
    | into_enum; right; left; eexists;
        split; [reflexivity | split; assumption]
    | into_enum; right; right; eexists;
        split; [reflexivity | split; assumption] ].

Lemma Tossup_from_json_errors (d : list (string * json)) (e : exn) :
  Tossup.from_json (JObj d) = Err e ->
  (exists k, e = KeyError k /\ absent_first tossup_keys d k) \/
  enum_failure d e.
Proof.
  unfold Tossup.from_json. repeat (step; try classify ltac:(right)).
Qed.

Lemma Bonus_from_json_errors (d : list (string * json)) (e : exn) :
  Bonus.from_json (JObj d) = Err e ->
  (exists k, e = KeyError k /\ absent_first bonus_keys d k) \/
  enum_failure d e \/
  e = TypeError.
Proof.
  unfold Bonus.from_json. repeat (step; try classify ltac:(right; left)).
  intros Herr. apply Bonus_init_error in Herr.
  right; right; exact Herr.
Qed.

(** When [from_json] raises [KeyError], the key it names is a key of
    the schema that the record lacks, and every key the constructor
    reads before it is present: the first absent key in reading order
    is the one reported. *)
Theorem KeyError_names_first_absent_key (d : list (string * json)) (k : string) :
  (Tossup.from_json (JObj d) = Err (KeyError k) ->
   absent_first tossup_keys d k) /\
  (Bonus.from_json (JObj d) = Err (KeyError k) ->
   absent_first bonus_keys d k).
Proof.
  split; intros Herr.
  - apply Tossup_from_json_errors in Herr.
    destruct Herr as [[k' [Hk Habs]] | [[v [Hv _]] | [[v [Hv _]] | [v [Hv _]]]]];
      try discriminate.
    inversion Hk; subst k'; exact Habs.
  - apply Bonus_from_json_errors in Herr.
    destruct Herr as [[k' [Hk Habs]] |
                      [[[v [Hv _]] | [[v [Hv _]] | [v [Hv _]]]] | Hty]];
      try discriminate.
    inversion Hk; subst k'; exact Habs.
Qed.

Lemma KeyError_names_first_absent_key_witness :
  absent_first tossup_keys
    (("category", JStr "Science") :: bogus_category_fields) "subcategory".
Proof.
  apply (proj1 (KeyError_names_first_absent_key
                  (("category", JStr "Science") :: bogus_category_fields)
                  "subcategory") eq_refl).
Defined.

(** When [from_json] raises [ValueError], the exception names the enum
    class and carries the offending value: the record's category or
    subcategory as found, or [str] of the record's difficulty; and that
    value is not a canonical string of that enum. *)
Theorem ValueError_carries_offending_value (d : list (string * json))
    (cls : string) (v : json) :
  (Tossup.from_json (JObj d) = Err (ValueError cls v) ->
   enum_failure d (ValueError cls v)) /\
  (Bonus.from_json (JObj d) = Err (ValueError cls v) ->
   enum_failure d (ValueError cls v)).
Proof.
  split; intros Herr.
  - apply Tossup_from_json_errors in Herr.
    destruct Herr as [[k' [Hk _]] | Henum]; [discriminate | exact Henum].
  - apply Bonus_from_json_errors in Herr.
    destruct Herr as [[k' [Hk _]] | [Henum | Hty]];
      [discriminate | exact Henum | discriminate].
Qed.

Lemma ValueError_carries_offending_value_witness :
  enum_failure (sample_fields (JInt 11)) (ValueError "Difficulty" (JStr "11")).
Proof.
  apply (proj1 (ValueError_carries_offending_value
                  (sample_fields (JInt 11)) "Difficulty" (JStr "11"))).
  reflexivity.
Defined.

(* ================================================================= *)
(** ** Input that is not a dict *)

Lemma bind_err_inv {A B : Type} (m : result A) (k : A -> result B) (e : exn) :
  bind m k = Err e -> m = Err e \/ exists a, m = Ok a /\ k a = Err e.
Proof.
  destruct m as [a | e']; simpl; intros H.
  - right; exists a; split; [reflexivity | exact H].
  - left; inversion H; reflexivity.
Qed.

Lemma getitem_error (j : json) (k : string) (e : exn) :
  getitem j k = Err e -> e = TypeError \/ e = KeyError k.
Proof.
  destruct j; simpl; try (intros H; inversion H; left; reflexivity).
  destruct (dict_lookup k l); intros H; inversion H; right; reflexivity.
Qed.

Lemma py_iter_error (v : json) (e : exn) :
  py_iter v = Err e -> e = TypeError.
Proof. destruct v; simpl; intros H; inversion H; reflexivity. Qed.

Lemma mapM_error_from_element {A B : Type} (f : A -> result B) (l : list A)
    (e : exn) :
  mapM f l = Err e -> exists x, In x l /\ f x = Err e.
Proof.
  induction l as [| x xs IH]; simpl; [discriminate |].
  destruct (f x) as [y |e'] eqn:Hfx; simpl.
  - destruct (mapM f xs) as [ys | e'']; simpl; [discriminate |].
    intros H; inversion H; subst e''.
    destruct (IH eq_refl) as [x' [Hin Hx']].
    exists x'; split; [right; exact Hin | exact Hx'].
  - intros H; inversion H; subst e'. exists x; split; [left; reflexivity | exact Hfx].
Qed.

Lemma Tossup_never_AttributeError (j : json) :
  Tossup.from_json j <> Err AttributeError.
Proof.
  destruct j as [| b | z | s | l | d]; try discriminate.
  intros Herr. apply Tossup_from_json_errors in Herr.
  destruct Herr as [[k' [Hk _]] | [[v [Hv _]] | [[v [Hv _]] | [v [Hv _]]]]];
    discriminate.
Qed.

Lemma Bonus_never_AttributeError (j : json) :
  Bonus.from_json j <> Err AttributeError.
Proof.
  destruct j as [| b | z | s | l | d]; try discriminate.
  intros Herr. apply Bonus_from_json_errors in Herr.
  destruct Herr as [[k' [Hk _]] |
                    [[[v [Hv _]] | [[v [Hv _]] | [v [Hv _]]]] | Hty]];
    discriminate.
Qed.

Ltac not_attribute_error H :=
  match type of H with
  | getitem _ _ = Err _ =>
      apply getitem_error in H; destruct H as [H | H]; discriminate
  | py_iter _ = Err _ => apply py_iter_error in H; discriminate
  end.

(** A JSON value that is not an object is rejected with [TypeError] by
    the three constructors: the subscript that comes first fails before
    any [get] is called. For the same reason no input at all makes them
    raise [AttributeError]; and a dict never makes [Tossup.from_json]
    raise [TypeError]. *)
Theorem input_type_errors (j : json) :
  ((forall d, j <> JObj d) ->
   Tossup.from_json j = Err TypeError /\
   Bonus.from_json j = Err TypeError /\
   QueryResponse.from_json j = Err TypeError) /\
  ((exists d, j = JObj d) -> Tossup.from_json j <> Err TypeError) /\
  Tossup.from_json j <> Err AttributeError /\
  Bonus.from_json j <> Err AttributeError /\
  QueryResponse.from_json j <> Err AttributeError.
Proof.
  split; [| split; [| split; [| split]]].
  - intros Hno. destruct j as [| b | z | s | l | d];
      try (split; [| split]; reflexivity).
    exfalso; apply (Hno d); reflexivity.
  - intros [d ->] Herr. apply Tossup_from_json_errors in Herr.
    destruct Herr as [[k' [Hk _]] | [[v [Hv _]] | [[v [Hv _]] | [v [Hv _]]]]];
      discriminate.
  - apply Tossup_never_AttributeError.
  - apply Bonus_never_AttributeError.
  - unfold QueryResponse.from_json. intros H.
    repeat (apply bind_err_inv in H;
            destruct H as [H | [? [? H]]];
            [first [ not_attribute_error H
                   | apply mapM_error_from_element in H;
                     destruct H as [? [_ H]]; exfalso;
                     first [ exact (Tossup_never_AttributeError _ H)
                           | exact (Bonus_never_AttributeError _ H) ] ] |]).
    discriminate.
Qed.

Lemma input_type_errors_witness :
  Tossup.from_json (JList []) = Err TypeError /\
  Bonus.from_json (JList []) = Err TypeError /\
  QueryResponse.from_json (JList []) = Err TypeError.
Proof.
  apply (proj1 (input_type_errors (JList []))). intros d; discriminate.
Defined.

(* ================================================================= *)
(** ** The values accepted as a difficulty *)

Lemma Z_to_int_not_nil (z : Z) :
  Z.to_int z <> Decimal.Pos Decimal.Nil /\ Z.to_int z <> Decimal.Neg Decimal.Nil.
Proof.
  destruct z as [| p | p]; simpl; split; try discriminate;
    intros H; inversion H as [Hp];
    apply (DecimalPos.Unsigned.to_uint_nonnil p Hp).
Qed.

(** [str] of an integer is its decimal numeral: it determines the
    integer. *)
Lemma str_of_Z_inj (z1 z2 : Z) : str_of_Z z1 = str_of_Z z2 -> z1 = z2.
Proof.
  unfold str_of_Z; intros Heq.
  assert (NilZero.int_of_string (NilZero.string_of_int (Z.to_int z1)) =
          NilZero.int_of_string (NilZero.string_of_int (Z.to_int z2))) as Hi
    by (rewrite Heq; reflexivity).
  destruct (Z_to_int_not_nil z1) as [Hp1 Hn1].
  destruct (Z_to_int_not_nil z2) as [Hp2 Hn2].
  rewrite (NilZero.isi _ Hp1 Hn1), (NilZero.isi _ Hp2 Hn2) in Hi.
  inversion Hi as [Hz].
  rewrite <- (DecimalZ.of_to z1), <- (DecimalZ.of_to z2), Hz; reflexivity.
Qed.

Lemma canonical_difficulty_level (s : string) :
  In s (canonical_strings Difficulty) ->
  exists z, (0 <= z <= 10)%Z /\ s = str_of_Z z.
Proof.
  simpl. intros Hin.
  repeat (destruct Hin as [<- | Hin];
          [match goal with
           | |- exists z, _ /\ ?s = _ =>
               let z := eval vm_compute in
                 (match NilZero.int_of_string s with
                  | Some i => Z.of_int i
                  | None => 0%Z
                  end) in
               exists z; split; [lia | reflexivity]
           end |]).
  contradiction.
Qed.

(** The JSON values that [Difficulty(str(x))] accepts are exactly the
    literals of [ValidDifficulties]: the integers 0 to 10 and their
    decimal strings. Booleans, null, other numbers, padded or signed
    numerals, lists and dicts are rejected. *)
Theorem difficulty_accepts_ValidDifficulties (v : json) :
  is_ok (enum_call Difficulty (JStr (str v))) = true <-> In v ValidDifficulties.
Proof.
  split.
  - intros Hok.
    destruct (enum_call Difficulty (JStr (str v))) as [m | e] eqn:Hcall;
      [clear Hok | discriminate].
    apply enum_call_ok_recognized in Hcall.
    apply recognized_true in Hcall. destruct Hcall as [s [Hs Hin]].
    inversion Hs as [Hstr]; clear Hs.
    destruct v as [| b | z | s' | l | d].
    + simpl in Hstr; subst s; simpl in Hin; intuition discriminate.
    + destruct b; simpl in Hstr; subst s; simpl in Hin; intuition discriminate.
    + apply canonical_difficulty_level in Hin.
      destruct Hin as [z' [Hz' Hs']]. rewrite Hs' in Hstr.
      simpl in Hstr. apply str_of_Z_inj in Hstr; subst z'.
      assert (z = 0 \/ z = 1 \/ z = 2 \/ z = 3 \/ z = 4 \/ z = 5 \/ z = 6 \/
              z = 7 \/ z = 8 \/ z = 9 \/ z = 10)%Z as Hcases by lia.
      repeat (destruct Hcases as [-> | Hcases]; [simpl; tauto |]).
      subst z; simpl; tauto.
    + simpl in Hstr; subst s'. simpl in Hin.
      repeat (destruct Hin as [<- | Hin]; [simpl; tauto |]). contradiction.
    + simpl in Hstr; subst s; simpl in Hin; intuition discriminate.
    + simpl in Hstr; subst s; simpl in Hin; intuition discriminate.
  - intros Hin; simpl in Hin.
    repeat (destruct Hin as [<- | Hin]; [reflexivity |]). contradiction.
Qed.

Lemma difficulty_accepts_ValidDifficulties_witness :
  is_ok (enum_call Difficulty (JStr (str (JInt 10)))) = true.
Proof.
  apply (proj2 (difficulty_accepts_ValidDifficulties (JInt 10))).
  simpl; tauto.
Defined.

(* ================================================================= *)
(** ** A [questionArray] that is not an array *)

Lemma mapM_non_dict_head (tarr : json) (elems : list json) :
  py_iter tarr = Ok elems ->
  (forall l, tarr <> JList l) ->
  elems = [] \/ exists s rest, elems = JStr s :: rest.
Proof.
  destruct tarr as [| b | z | s | l | d]; simpl; try discriminate;
    intros Hit Hno; inversion Hit; subst elems.
  - destruct s; simpl; [left; reflexivity | right; eexists; eexists; reflexivity].
  - exfalso; apply (Hno l); reflexivity.
  - destruct d; simpl; [left; reflexivity | right; eexists; eexists; reflexivity].
Qed.

(** The comprehension over [tossups.questionArray] iterates whatever it
    finds there. A value that is not a JSON array makes
    [QueryResponse.from_json] raise [TypeError] (a scalar cannot be
    iterated, and the characters of a string or the keys of a dict are
    not records), except the empty string and the empty dict, which are
    read as no tossups at all. *)
Theorem questionArray_not_an_array (j ts tarr : json) :
  getitem j "tossups" = Ok ts ->
  getitem ts "questionArray" = Ok tarr ->
  (forall l, tarr <> JList l) ->
  (tarr <> JStr EmptyString -> tarr <> JObj [] ->
   QueryResponse.from_json j = Err TypeError) /\
  (forall qr, QueryResponse.from_json j = Ok qr ->
              QueryResponse.tossups qr = []).
Proof.
  intros Hts Htarr Hno. unfold QueryResponse.from_json.
  rewrite Hts; cbn [bind]. rewrite Htarr; cbn [bind].
  destruct (py_iter tarr) as [elems | e] eqn:Hit; cbn [bind].
  - destruct (mapM_non_dict_head tarr elems Hit Hno) as [-> | [s [rest ->]]].
    + split.
      * intros Hs Hd. exfalso.
        destruct tarr as [| b | z | s | l | d]; simpl in Hit; try discriminate.
        -- destruct s; [apply Hs; reflexivity | discriminate].
        -- apply (Hno l); reflexivity.
        -- destruct d; [apply Hd; reflexivity | discriminate].
      * intros qr Hok. simpl in Hok. invert_binds Hok.
        inversion Hok; reflexivity.
    + split; [intros _ _; reflexivity | intros qr Hok; discriminate].
  - apply py_iter_error in Hit; subst e.
    split; [intros _ _; reflexivity | intros qr Hok; discriminate].
Qed.

Lemma questionArray_not_an_array_witness :
  QueryResponse.from_json
    (JObj [("tossups", JObj [("questionArray", JStr "ab")])]) = Err TypeError.
Proof.
  apply (proj1 (questionArray_not_an_array
                  (JObj [("tossups", JObj [("questionArray", JStr "ab")])])
                  (JObj [("questionArray", JStr "ab")]) (JStr "ab")
                  eq_refl eq_refl ltac:(discriminate)));
    discriminate.
Defined.

(* ================================================================= *)
(** ** When rendering raises *)

Lemma mapM_ok_Forall {A B : Type} (f : A -> result B) (l : list A) :
  is_ok (mapM f l) = true <-> Forall (fun x => is_ok (f x) = true) l.
Proof.
  induction l as [| x xs IH]; simpl.
  - split; [intros _; constructor | reflexivity].
  - destruct (f x) as [y | e] eqn:Hfx; simpl.
    + destruct (mapM f xs) as [ys | e]; simpl.
      * split; [intros _ | reflexivity].
        constructor; [rewrite Hfx; reflexivity | apply IH; reflexivity].
      * split; [discriminate |].
        intros Hall; inversion Hall; subst. apply IH; assumption.
    + split; [discriminate |].
      intros Hall; inversion Hall as [| ? ? Hx _]; subst.
      rewrite Hfx in Hx; discriminate.
Qed.

Lemma mapM_as_str_ok (items : list json) (l : list string) :
  mapM as_str items = Ok l -> items = map JStr l.
Proof.
  revert l; induction items as [| x xs IH]; intros l; simpl.
  - intros H; inversion H; reflexivity.
  - destruct x; simpl; try discriminate.
    destruct (mapM as_str xs) as [ys |]; simpl; [| discriminate].
    intros H; inversion H; subst l. simpl. rewrite (IH ys eq_refl); reflexivity.
Qed.

Lemma to_string_errors :
  (forall t e, Tossup.to_string t = Err e -> e = TypeError) /\
  (forall b e, Bonus.to_string b = Err e -> e = TypeError).
Proof.
  split.
  - intros t e. unfold Tossup.to_string, as_str.
    destruct (Tossup.__str__ t); intros H; inversion H; reflexivity.
  - intros b e. unfold Bonus.to_string, Bonus.__str__, py_join. intros H.
    apply bind_err_inv in H. destruct H as [H | [l [_ H]]]; [| discriminate].
    apply mapM_error_from_element in H. destruct H as [x [_ Hx]].
    destruct x; inversion Hx; reflexivity.
Qed.

(** [from_json] stores the texts without looking at their type, so
    rendering can raise: a Tossup renders exactly when its question is
    a string, a Bonus exactly when all its parts are strings, a
    QueryResponse exactly when all its tossups and bonuses render; the
    exception is always [TypeError]. A record whose question is a
    number is accepted by [Tossup.from_json] and cannot be rendered. *)
Theorem rendering_needs_strings :
  (forall t, is_ok (Tossup.to_string t) = true <->
             exists q, Tossup.question t = JStr q) /\
  (forall b, is_ok (Bonus.to_string b) = true <->
             exists ps, Bonus.parts b = map JStr ps) /\
  (forall qr, is_ok (QueryResponse.to_string qr) = true <->
     Forall (fun t => is_ok (Tossup.to_string t) = true)
            (QueryResponse.tossups qr) /\
     Forall (fun b => is_ok (Bonus.to_string b) = true)
            (QueryResponse.bonuses qr)) /\
  (forall qr e, QueryResponse.to_string qr = Err e -> e = TypeError) /\
  (exists t, Tossup.from_json numeric_question_tossup = Ok t /\
             Tossup.to_string t = Err TypeError).
Proof.
  split; [| split; [| split; [| split]]].
  - intros t. unfold Tossup.to_string, Tossup.__str__, as_str. split.
    + destruct (Tossup.question t); try discriminate.
      intros _; eexists; reflexivity.
    + intros [q ->]; reflexivity.
  - intros b. unfold Bonus.to_string, Bonus.__str__. split.
    + unfold py_join.
      destruct (mapM as_str (Bonus.parts b)) as [l |] eqn:Hm; [| discriminate].
      intros _. exists l. apply mapM_as_str_ok; exact Hm.
    + intros [ps ->]. rewrite py_join_strings; reflexivity.
  - intros qr. unfold QueryResponse.to_string, QueryResponse.__str__.
    rewrite <- !mapM_ok_Forall.
    destruct (mapM Tossup.to_string (QueryResponse.tossups qr)); simpl;
      [| split; [discriminate | intros [H _]; exact H]].
    destruct (mapM Bonus.to_string (QueryResponse.bonuses qr)); simpl;
      [split; [intros _; split; reflexivity | reflexivity] |].
    split; [discriminate | intros [_ H]; exact H].
  - intros qr e. unfold QueryResponse.to_string, QueryResponse.__str__.
    intros H. destruct to_string_errors as [Ht Hb].
    apply bind_err_inv in H. destruct H as [H | [ts [_ H]]].
    + apply mapM_error_from_element in H. destruct H as [t [_ H]].
      apply (Ht t e H).
    + apply bind_err_inv in H. destruct H as [H | [bs [_ H]]]; [| discriminate].
      apply mapM_error_from_element in H. destruct H as [b [_ H]].
      apply (Hb b e H).
  - eexists; split; reflexivity.
Qed.

Lemma rendering_needs_strings_witness :
  exists t, Tossup.from_json sample_tossup = Ok t /\
            is_ok (Tossup.to_string t) = true.
Proof.
  eexists; split; [reflexivity |].
  apply (proj1 rendering_needs_strings). exists "Q1"; reflexivity.
Defined.

(* ================================================================= *)
(** ** From the response to its text *)

Lemma tossups_render_questions (telems : list json) (tossups : list Tossup.t)
    (qs : list string) :
  mapM Tossup.from_json telems = Ok tossups ->
  map (fun x => getitem x "question") telems = map (fun q => Ok (JStr q)) qs ->
  map Tossup.to_string tossups = map Ok qs.
Proof.
  revert tossups qs; induction telems as [| x xs IH]; intros tossups qs Hm Hq.
  - simpl in Hm; inversion Hm; subst tossups.
    destruct qs; [reflexivity | discriminate].
  - destruct qs as [| q qs']; [discriminate |].
    simpl in Hm, Hq. inversion Hq as [[Hx Hxs]]; clear Hq.
    apply bind_ok_inv in Hm; destruct Hm as [t [Ht Hm]].
    apply bind_ok_inv in Hm; destruct Hm as [ts [Hts Hm]].
    inversion Hm; subst tossups; clear Hm. simpl.
    rewrite (IH ts qs' Hts Hxs). f_equal.
    apply Tossup_from_json_inv in Ht.
    destruct Ht as (d & q' & a & c & s & sn & sy & pn & qn & dv & cat & sub &
                    dif & Hj & Hq' & _ & _ & _ & _ & _ & _ & _ & _ & _ & _ &
                    _ & ->).
    subst x. rewrite (getitem_some _ _ _ Hq') in Hx. inversion Hx; subst q'.
    reflexivity.
Qed.

Lemma bonuses_render_parts (belems : list json) (bonuses : list Bonus.t)
    (pss : list (list string)) :
  mapM Bonus.from_json belems = Ok bonuses ->
  map (fun x => getitem x "parts") belems =
    map (fun ps => Ok (JList (map JStr ps))) pss ->
  map Bonus.to_string bonuses = map (fun ps => Ok (join LF ps)) pss.
Proof.
  revert bonuses pss; induction belems as [| x xs IH]; intros bonuses pss Hm Hp.
  - simpl in Hm; inversion Hm; subst bonuses.
    destruct pss; [reflexivity | discriminate].
  - destruct pss as [| ps pss']; [discriminate |].
    simpl in Hm, Hp. inversion Hp as [[Hx Hxs]]; clear Hp.
    apply bind_ok_inv in Hm; destruct Hm as [b [Hb Hm]].
    apply bind_ok_inv in Hm; destruct Hm as [bs [Hbs Hm]].
    inversion Hm; subst bonuses; clear Hm. simpl.
    rewrite (IH bs pss' Hbs Hxs). f_equal.
    apply Bonus_from_json_inv in Hb.
    destruct Hb as (d & l & p & a & c & s & sn & sy & pn & qn & dv & cat &
                    sub & dif & Hj & _ & Hp & _ & _ & _ & _ & _ & _ & _ & _ &
                    _ & _ & _ & Hinit).
    subst x. rewrite (getitem_some _ _ _ Hp) in Hx. inversion Hx; subst p.
    apply Bonus_init_fields in Hinit. destruct Hinit as (Hparts & _).
    simpl in Hparts. inversion Hparts as [Hps].
    unfold Bonus.to_string, Bonus.__str__. rewrite <- Hps.
    apply py_join_strings.
Qed.

(** End to end: when [QueryResponse.from_json] accepts a response whose
    tossup records have string questions and whose bonus records have
    arrays of strings as parts, the response renders as those question
    texts joined by blank lines, then two blank lines, then each bonus's
    parts on consecutive lines, the bonuses joined by blank lines. *)
Theorem response_text_from_json (j ts tarr bs barr : json)
    (telems belems : list json) (qr : QueryResponse.t)
    (qs : list string) (pss : list (list string)) :
  QueryResponse.from_json j = Ok qr ->
  getitem j "tossups" = Ok ts ->
  getitem ts "questionArray" = Ok tarr ->
  py_iter tarr = Ok telems ->
  getitem j "bonuses" = Ok bs ->
  getitem bs "questionArray" = Ok barr ->
  py_iter barr = Ok belems ->
  map (fun x => getitem x "question") telems = map (fun q => Ok (JStr q)) qs ->
  map (fun x => getitem x "parts") belems =
    map (fun ps => Ok (JList (map JStr ps))) pss ->
  QueryResponse.to_string qr =
    Ok (join (LF ++ LF) qs ++ (LF ++ LF ++ LF) ++
        join (LF ++ LF) (map (join LF) pss)).
Proof.
  intros Hok Hts Htarr Htel Hbs Hbarr Hbel Hqs Hpss.
  unfold QueryResponse.from_json in Hok.
  rewrite Hts in Hok; cbn [bind] in Hok. rewrite Htarr in Hok; cbn [bind] in Hok.
  rewrite Htel in Hok; cbn [bind] in Hok.
  apply bind_ok_inv in Hok; destruct Hok as [tossups [Htoss Hok]].
  rewrite Hbs in Hok; cbn [bind] in Hok. rewrite Hbarr in Hok; cbn [bind] in Hok.
  rewrite Hbel in Hok; cbn [bind] in Hok.
  apply bind_ok_inv in Hok; destruct Hok as [bonuses [Hbon Hok]].
  invert_binds Hok. inversion Hok; subst qr; clear Hok.
  unfold QueryResponse.to_string, QueryResponse.__str__; simpl.
  rewrite (map_Ok_mapM _ _ _ (tossups_render_questions _ _ _ Htoss Hqs));
    cbn [bind].
  assert (map Bonus.to_string bonuses = map Ok (map (join LF) pss)) as Hb
    by (rewrite map_map; apply (bonuses_render_parts _ _ _ Hbon Hpss)).
  rewrite (map_Ok_mapM _ _ _ Hb); cbn [bind]. reflexivity.
Qed.

Lemma response_text_from_json_witness :
  exists qr, QueryResponse.from_json paginated_response = Ok qr /\
    QueryResponse.to_string qr = Ok ("Q1" ++ LF ++ LF ++ "Q1" ++ LF ++ LF ++ LF).
Proof.
  eexists; split; [reflexivity |].
  apply (response_text_from_json paginated_response _ _ _ _ _ _ _
           ["Q1"; "Q1"] [] eq_refl eq_refl eq_refl eq_refl eq_refl eq_refl
           eq_refl eq_refl eq_refl).
Defined.

(* ================================================================= *)
(** ** A difficulty level through [from_json] *)

Ltac open_metadata_but_difficulty H :=
  destruct H as (?c & ?s & ?sn & ?sy & ?pn & ?qn &
                 ?Hc & ?Hs & ?Hsn & ?Hsy & ?Hpn & ?Hqn & Hrc & Hrs);
  apply enum_call_recognized in Hrc; destruct Hrc as [?cat Hrc];
  apply enum_call_recognized in Hrs; destruct Hrs as [?sub Hrs].

Lemma Tossup_from_json_level (d : list (string * json)) (q a dv : json)
    (level : Difficulty) :
  dict_lookup "question" d = Some q ->
  dict_lookup "answer" d = Some a ->
  metadata_but_difficulty_ok d ->
  dict_lookup "difficulty" d = Some dv ->
  enum_call Difficulty (JStr (str dv)) = Ok level ->
  exists t, Tossup.from_json (JObj d) = Ok t /\ Tossup.difficulty t = level.
Proof.
  intros Hq Ha Hmeta Hdv Hlevel. open_metadata_but_difficulty Hmeta.
  unfold Tossup.from_json. repeat step.
  eexists; split; reflexivity.
Qed.

Lemma Bonus_from_json_level (d : list (string * json)) (l p a dv : json)
    (level : Difficulty) :
  dict_lookup "leadin" d = Some l ->
  dict_lookup "parts" d = Some p ->
  dict_lookup "answers" d = Some a ->
  iterable p = true -> iterable a = true ->
  iterable (chosen_formatted_answers d a) = true ->
  metadata_but_difficulty_ok d ->
  dict_lookup "difficulty" d = Some dv ->
  enum_call Difficulty (JStr (str dv)) = Ok level ->
  exists b, Bonus.from_json (JObj d) = Ok b /\ Bonus.difficulty b = level.
Proof.
  intros Hl Hp Ha Hitp Hita Hitf Hmeta Hdv Hlevel.
  open_metadata_but_difficulty Hmeta.
  unfold Bonus.from_json. repeat step.
  pose proof (chosen_formatted_answers_eq d a) as Hch; cbv zeta in Hch.
  match goal with
  | |- exists b, ?init = Ok b /\ _ =>
      destruct init as [b | e] eqn:Hinit;
      [ exists b; split; [reflexivity |];
        apply Bonus_init_fields in Hinit; apply Hinit
      | assert (is_ok init = false) as Hno by (rewrite Hinit; reflexivity);
        rewrite Bonus_init_iterable, Hch, Hitp, Hita, Hitf in Hno;
        discriminate ]
  end.
Qed.

(** C3: [from_json] applies [str] to the difficulty field before the enum
    lookup, so for a level d in 0..10 the integer d and the string
    [str(d)] parse to the same member (the d-th one), and two records
    that differ only in carrying one or the other are normalized alike
    by [Tossup.from_json] and by [Bonus.from_json]: they give the same
    result, any entity they give has that member as its difficulty, and
    when the rest of the record is acceptable both are accepted, as one
    and the same entity with that difficulty. *)
Theorem difficulty_int_or_numeric_string (z : Z) :
  (0 <= z <= 10)%Z ->
  let level := nth (Z.to_nat z) members UNRATED in
  enum_call Difficulty (JStr (str (JInt z))) = Ok level /\
  enum_call Difficulty (JStr (str (JStr (str (JInt z))))) = Ok level /\
  forall d1 d2,
    agree_except "difficulty" d1 d2 ->
    dict_lookup "difficulty" d1 = Some (JInt z) ->
    dict_lookup "difficulty" d2 = Some (JStr (str (JInt z))) ->
    Tossup.from_json (JObj d1) = Tossup.from_json (JObj d2) /\
    Bonus.from_json (JObj d1) = Bonus.from_json (JObj d2) /\
    (forall t, Tossup.from_json (JObj d1) = Ok t -> Tossup.difficulty t = level) /\
    (forall b, Bonus.from_json (JObj d1) = Ok b -> Bonus.difficulty b = level) /\
    (metadata_but_difficulty_ok d1 ->
     (forall q a,
        dict_lookup "question" d1 = Some q ->
        dict_lookup "answer" d1 = Some a ->
        exists t, Tossup.from_json (JObj d1) = Ok t /\
                  Tossup.from_json (JObj d2) = Ok t /\
                  Tossup.difficulty t = level) /\
     (forall l p a,
        dict_lookup "leadin" d1 = Some l ->
        dict_lookup "parts" d1 = Some p ->
        dict_lookup "answers" d1 = Some a ->
        iterable p = true -> iterable a = true ->
        iterable (chosen_formatted_answers d1 a) = true ->
        exists b, Bonus.from_json (JObj d1) = Ok b /\
                  Bonus.from_json (JObj d2) = Ok b /\
                  Bonus.difficulty b = level)).
Proof.
  intros Hz level. pose proof (difficulty_level_parses z Hz) as Hlevel.
  split; [exact Hlevel | split; [exact Hlevel |]].
  intros d1 d2 Hag H1 H2.
  destruct (from_json_int_or_string z d1 d2 Hag H1 H2) as [Ht Hb].
  split; [exact Ht | split; [exact Hb | split; [| split]]].
  - intros t Hok. apply Tossup_from_json_inv in Hok.
    destruct Hok as (d & q & a & c & s & sn & sy & pn & qn & dv & cat & sub &
                     dif & Hj & _ & _ & _ & _ & _ & _ & _ & _ & Hdv & _ & _ &
                     Hdif & ->).
    inversion Hj; subst d. rewrite H1 in Hdv; inversion Hdv; subst dv.
    rewrite Hlevel in Hdif; inversion Hdif; reflexivity.
  - intros b Hok. apply Bonus_from_json_inv in Hok.
    destruct Hok as (d & l & p & a & c & s & sn & sy & pn & qn & dv & cat &
                     sub & dif & Hj & _ & _ & _ & _ & _ & _ & _ & _ & _ & Hdv &
                     _ & _ & Hdif & Hinit).
    inversion Hj; subst d. rewrite H1 in Hdv; inversion Hdv; subst dv.
    rewrite Hlevel in Hdif; inversion Hdif; subst dif.
    apply Bonus_init_fields in Hinit. apply Hinit.
  - intros Hmeta; split.
    + intros q a Hq Ha.
      destruct (Tossup_from_json_level d1 q a (JInt z) level Hq Ha Hmeta H1
                  Hlevel) as [t [Hok Hdif]].
      exists t. split; [exact Hok | split; [| exact Hdif]].
      rewrite <- Ht; exact Hok.
    + intros l p a Hl Hp Ha Hitp Hita Hitf.
      destruct (Bonus_from_json_level d1 l p a (JInt z) level Hl Hp Ha Hitp
                  Hita Hitf Hmeta H1 Hlevel) as [b [Hok Hdif]].
      exists b. split; [exact Hok | split; [| exact Hdif]].
      rewrite <- Hb; exact Hok.
Qed.

Lemma difficulty_int_or_numeric_string_witness :
  enum_call Difficulty (JStr (str (JInt 7))) = Ok TWO_DOT /\
  enum_call Difficulty (JStr (str (JStr "7"))) = Ok TWO_DOT /\
  (exists t, Tossup.from_json (JObj (sample_fields (JInt 7))) = Ok t /\
             Tossup.from_json (JObj (sample_fields (JStr "7"))) = Ok t /\
             Tossup.difficulty t = TWO_DOT) /\
  (exists b, Bonus.from_json (JObj (sample_fields (JInt 7))) = Ok b /\
             Bonus.from_json (JObj (sample_fields (JStr "7"))) = Ok b /\
             Bonus.difficulty b = TWO_DOT).
Proof.
  assert (0 <= 7 <= 10)%Z as Hz by lia.
  destruct (difficulty_int_or_numeric_string 7 Hz) as [Hi [Hs Hrec]].
  split; [exact Hi | split; [exact Hs |]].
  assert (agree_except "difficulty" (sample_fields (JInt 7))
            (sample_fields (JStr "7"))) as Hag.
  { intros k Hk; simpl.
    destruct (String.eqb k "difficulty") eqn:Heq;
      [apply String.eqb_eq in Heq; contradiction |].
    repeat (destruct (String.eqb k _); [reflexivity |]). reflexivity. }
  destruct (Hrec (sample_fields (JInt 7)) (sample_fields (JStr "7")) Hag
              eq_refl eq_refl) as (_ & _ & _ & _ & Hacc).
  assert (metadata_but_difficulty_ok (sample_fields (JInt 7))) as Hmeta.
  { exists (JStr "Science"), (JStr "Physics"), (JStr "S"), (JInt 2020),
      (JInt 1), (JInt 2).
    repeat (split; [reflexivity |]). reflexivity. }
  destruct (Hacc Hmeta) as [Htoss Hbon]. split.
  - apply (Htoss (JStr "Q1") (JStr "A1")); reflexivity.
  - apply (Hbon (JStr "L") (JList [JStr "p1"; JStr "p2"; JStr "p3"])
             (JList [JStr "a1"; JStr "a2"; JStr "a3"])); reflexivity.
Defined.

(* ================================================================= *)
(** ** The text of an entity *)

Lemma Bonus_to_string_non_strings (b : Bonus.t) :
  (forall ps, Bonus.parts b <> map JStr ps) ->
  Bonus.to_string b = Err TypeError.
Proof.
  intros Hno. unfold Bonus.to_string, Bonus.__str__, py_join.
  destruct (mapM as_str (Bonus.parts b)) as [l | e] eqn:Hm; simpl.
  - exfalso. apply (Hno l). apply mapM_as_str_ok; exact Hm.
  - apply mapM_error_from_element in Hm. destruct Hm as [x [_ Hx]].
    destruct x; inversion Hx; reflexivity.
Qed.

Lemma mapM_fails_on_some {A B : Type} (f : A -> result B) (l : list A) :
  (exists x, In x l /\ is_ok (f x) = false) ->
  exists e x, mapM f l = Err e /\ In x l /\ f x = Err e.
Proof.
  intros Hbad. destruct (mapM f l) as [l' | e] eqn:Hm.
  - exfalso. destruct Hbad as [x [Hin Hx]].
    assert (is_ok (mapM f l) = true) as Hok by (rewrite Hm; reflexivity).
    apply mapM_ok_Forall in Hok. rewrite Forall_forall in Hok.
    rewrite (Hok x Hin) in Hx; discriminate.
  - apply mapM_error_from_element in Hm. destruct Hm as [x [Hin Hx]].
    exists e, x. split; [reflexivity | split; assumption].
Qed.

(** C9, amended: [from_json] stores the texts as it finds them, and the
    rendering is defined on strings. A Tossup whose question is a string
    renders as exactly that text, which is the [question] string of the
    record it was built from; a Bonus whose parts are all strings
    renders as its parts joined by single line breaks; a QueryResponse
    whose tossups and bonuses all render renders as its tossup texts
    joined by blank lines, then two blank lines, then its bonus texts
    joined by blank lines. A Tossup whose question is not a string, a
    Bonus with a part that is not a string, and a QueryResponse holding
    either, raise [TypeError] instead. *)
Theorem plain_text_rendering :
  (forall t q, Tossup.question t = JStr q -> Tossup.to_string t = Ok q) /\
  (forall d t q, Tossup.from_json (JObj d) = Ok t ->
     dict_lookup "question" d = Some (JStr q) -> Tossup.to_string t = Ok q) /\
  (forall b ps, Bonus.parts b = map JStr ps ->
     Bonus.to_string b = Ok (join LF ps)) /\
  (forall qr ts bs,
     map Tossup.to_string (QueryResponse.tossups qr) = map Ok ts ->
     map Bonus.to_string (QueryResponse.bonuses qr) = map Ok bs ->
     QueryResponse.to_string qr =
       Ok (join (LF ++ LF) ts ++ (LF ++ LF ++ LF) ++ join (LF ++ LF) bs)) /\
  (forall t, (forall q, Tossup.question t <> JStr q) ->
     Tossup.to_string t = Err TypeError) /\
  (forall b, (forall ps, Bonus.parts b <> map JStr ps) ->
     Bonus.to_string b = Err TypeError) /\
  (forall qr,
     (exists t, In t (QueryResponse.tossups qr) /\
                is_ok (Tossup.to_string t) = false) \/
     (exists b, In b (QueryResponse.bonuses qr) /\
                is_ok (Bonus.to_string b) = false) ->
     QueryResponse.to_string qr = Err TypeError).
Proof.
  split; [| split; [| split; [| split; [| split; [| split]]]]].
  - intros t q Hq. unfold Tossup.to_string, Tossup.__str__.
    rewrite Hq; reflexivity.
  - intros d0 t q Hok Hq. apply Tossup_from_json_inv in Hok.
    destruct Hok as (d & q' & a & c & s & sn & sy & pn & qn & dv & cat & sub &
                     dif & Hj & Hq' & _ & _ & _ & _ & _ & _ & _ & _ & _ & _ &
                     _ & ->).
    inversion Hj; subst d0. rewrite Hq in Hq'; inversion Hq'; subst q'.
    reflexivity.
  - intros b ps Hps. unfold Bonus.to_string, Bonus.__str__.
    rewrite Hps. apply py_join_strings.
  - intros qr ts bs Hts Hbs.
    unfold QueryResponse.to_string, QueryResponse.__str__.
    rewrite (map_Ok_mapM _ _ _ Hts); cbn [bind].
    rewrite (map_Ok_mapM _ _ _ Hbs); cbn [bind]. reflexivity.
  - intros t Hno. unfold Tossup.to_string, Tossup.__str__, as_str.
    destruct (Tossup.question t) as [| b | z | s | l | d] eqn:Hq;
      try reflexivity.
    exfalso; apply (Hno s); reflexivity.
  - apply Bonus_to_string_non_strings.
  - intros qr Hbad. destruct to_string_errors as [Hterr Hberr].
    unfold QueryResponse.to_string, QueryResponse.__str__.
    destruct (mapM Tossup.to_string (QueryResponse.tossups qr))
      as [ts | e] eqn:Hmt; cbn [bind].
    + destruct Hbad as [Hbad | Hbad].
      * apply mapM_fails_on_some in Hbad.
        destruct Hbad as [e [x [Hm _]]]. rewrite Hm in Hmt; discriminate.
      * apply mapM_fails_on_some in Hbad.
        destruct Hbad as [e [x [Hm [_ Hx]]]]. rewrite Hm; cbn [bind].
        rewrite (Hberr x e Hx); reflexivity.
    + apply mapM_error_from_element in Hmt. destruct Hmt as [x [_ Hx]].
      rewrite (Hterr x e Hx); reflexivity.
Qed.

Lemma plain_text_rendering_witness :
  (exists t, Tossup.from_json sample_tossup = Ok t /\
             Tossup.to_string t = Ok "Q1") /\
  (exists b, Bonus.from_json sample_bonus = Ok b /\
             Bonus.to_string b = Ok ("p1" ++ LF ++ "p2" ++ LF ++ "p3")) /\
  (exists qr, QueryResponse.from_json single_tossup_response = Ok qr /\
              QueryResponse.to_string qr = Ok ("Q1" ++ LF ++ LF ++ LF)) /\
  (exists t, Tossup.from_json numeric_question_tossup = Ok t /\
             Tossup.to_string t = Err TypeError).
Proof.
  destruct plain_text_rendering as (_ & Hjson & Hbonus & Hqr & Hnum & _).
  split; [| split; [| split]].
  - eexists; split; [reflexivity |].
    apply (Hjson (sample_fields (JInt 3)) _ "Q1"); reflexivity.
  - eexists; split; [reflexivity |].
    apply (Hbonus _ ["p1"; "p2"; "p3"]); reflexivity.
  - eexists; split; [reflexivity |].
    apply (Hqr _ ["Q1"] []); reflexivity.
  - eexists; split; [reflexivity |].
    apply Hnum. intros q; discriminate.
Defined.
